(** * Spike sonification: spike times to MIDI, and MIDI to WAV

    A shallow embedding of the three scripts of the repository
    ([parquet_to_midi.py], [midi_to_wave.py], [midi_to_wave_suyee.py]) and the
    properties of their pitch policies, note emission and audio rendering.

    Python integers are [Z]; Python floats and NumPy float64 values are the
    binary64 numbers of [PrimFloat]; text is [string] (ASCII); the dictionary
    of custom pitches is a [gmap].  Printing, writing files, the NumPy
    generator and raising are threaded through a state-and-exception monad
    over a [world]. *)

From Stdlib Require Import ZArith Floats String Ascii List Lia Bool.
From stdpp Require Import gmap strings list pretty.

Open Scope Z_scope.

(** ** Python exceptions *)

(** An exception class is [Exception] or a class derived, directly or not,
    from it.  The interpreter-exit signals [SystemExit], [KeyboardInterrupt]
    and [GeneratorExit], which do not derive from [Exception], are not
    failures of a call and are not represented. *)
Inductive exc_class : Type :=
| Exception
| Derived (name : string) (base : exc_class).

#[global] Instance exc_class_eq_dec : EqDecision exc_class.
Proof. solve_decision. Defined.

Definition ImportError : exc_class := Derived "ImportError" Exception.
Definition OSError : exc_class := Derived "OSError" Exception.
Definition ValueError : exc_class := Derived "ValueError" Exception.
Definition TypeError : exc_class := Derived "TypeError" Exception.
Definition ArithmeticError : exc_class := Derived "ArithmeticError" Exception.
Definition OverflowError : exc_class := Derived "OverflowError" ArithmeticError.
Definition ZeroDivisionError : exc_class :=
  Derived "ZeroDivisionError" ArithmeticError.
Definition LookupError : exc_class := Derived "LookupError" Exception.
Definition IndexError : exc_class := Derived "IndexError" LookupError.
Definition FileNotFoundError : exc_class := Derived "FileNotFoundError" OSError.

(** [issubclass c target]: [target] is [c] or one of its bases. *)
Fixpoint issubclass (c target : exc_class) : bool :=
  bool_decide (c = target)
  || match c with
     | Exception => false
     | Derived _ base => issubclass base target
     end.

Record exn : Type := Exn { exn_class : exc_class; exn_msg : string }.

(** The test of [except (C1, ..., Cn)]. *)
Definition isinstance (e : exn) (classes : list exc_class) : bool :=
  existsb (issubclass (exn_class e)) classes.

Inductive result (A : Type) : Type :=
| Ok (a : A)
| Raise (e : exn).
Arguments Ok {A} a.
Arguments Raise {A} e.

Definition result_bind {A B : Type} (r : result A) (k : A -> result B)
  : result B :=
  match r with
  | Ok a => k a
  | Raise e => Raise e
  end.

(** ** Python numbers *)

Module PyNum.

(** [float(z)] and the implicit conversion of an [int] operand in mixed
    arithmetic: round to nearest, ties to even; too large an integer
    raises. *)
Definition float_of_int (z : Z) : result float :=
  match binary_normalize prec emax z 0 false with
  | S754_infinity _ =>
      Raise (Exn OverflowError "int too large to convert to float")
  | sf => Ok (SF2Prim sf)
  end.

Definition sf_of_int (z : Z) : spec_float :=
  match z with
  | Z0 => S754_zero false
  | Zpos m => S754_finite false m 0
  | Zneg m => S754_finite true m 0
  end.

(** [a / b] on two [int]s: the correctly rounded quotient. *)
Definition int_true_div (a b : Z) : result float :=
  if b =? 0 then Raise (Exn ZeroDivisionError "division by zero")
  else
    match SFdiv prec emax (sf_of_int a) (sf_of_int b) with
    | S754_infinity _ =>
        Raise (Exn OverflowError
                 "integer division result too large for a float")
    | sf => Ok (SF2Prim sf)
    end.

(** [int(x)]: truncation toward zero. *)
Definition int_of_float (x : float) : result Z :=
  match Prim2SF x with
  | S754_zero _ => Ok 0
  | S754_finite s m e =>
      let a := Z.shiftl (Zpos m) e in
      Ok (if s then - a else a)
  | S754_infinity _ =>
      Raise (Exn OverflowError "cannot convert float infinity to integer")
  | S754_nan =>
      Raise (Exn ValueError "cannot convert float NaN to integer")
  end.

(** [x * z] and [z + x] with [x] a float and [z] an [int]. *)
Definition float_mul_int (x : float) (z : Z) : result float :=
  result_bind (float_of_int z) (fun y => Ok (x * y)%float).

Definition int_add_float (z : Z) (x : float) : result float :=
  result_bind (float_of_int z) (fun y => Ok (y + x)%float).

(** The builtins [min(a, b)] and [max(a, b)] on floats: the first argument
    unless the second compares strictly smaller (greater). *)
Definition py_min (a b : float) : float := if (b <? a)%float then b else a.
Definition py_max (a b : float) : float := if (a <? b)%float then b else a.

(** [max(xs)] on a list. *)
Definition py_max_list (xs : list float) : result float :=
  match xs with
  | [] => Raise (Exn ValueError "max() arg is an empty sequence")
  | x :: rest => Ok (fold_left py_max rest x)
  end.

Definition is_nan (x : float) : bool := negb (x =? x)%float.

(** [np.maximum]: like [max] but a NaN operand wins. *)
Definition np_maximum (a b : float) : float :=
  if is_nan a then a else if is_nan b then b
  else if (a <? b)%float then b else a.

(** [np.max(a)] on a one-dimensional array. *)
Definition np_max (xs : list float) : result float :=
  match xs with
  | [] => Raise (Exn ValueError
             "zero-size array to reduction operation maximum which has no identity")
  | x :: rest => Ok (fold_left np_maximum rest x)
  end.

(** [l[i]] on a list or one-dimensional array, negative indices counting
    from the end. *)
Definition getitem {A : Type} (l : list A) (i : Z) : result A :=
  let n := Z.of_nat (length l) in
  let j := if i <? 0 then i + n else i in
  if (j <? 0) || (n <=? j) then
    Raise (Exn IndexError "index out of range")
  else
    match l !! Z.to_nat j with
    | Some a => Ok a
    | None => Raise (Exn IndexError "index out of range")
    end.

(** [l[:k]]. *)
Definition slice_to {A : Type} (l : list A) (k : Z) : list A :=
  let n := Z.of_nat (length l) in
  let stop := if k <? 0 then Z.max (k + n) 0 else Z.min k n in
  take (Z.to_nat stop) l.

End PyNum.

(** ** Python text *)

Module PyStr.

(** ASCII white space, as [str.split()] and [str.isspace()] see it. *)
Definition is_space (c : ascii) : bool :=
  let n := N_of_ascii c in
  ((9 <=? n) && (n <=? 13) || (28 <=? n) && (n <=? 32))%N.

Definition mem_char (c : ascii) (chars : string) : bool :=
  existsb (Ascii.eqb c) (list_ascii_of_string chars).

Fixpoint lstrip_list (chars : string) (s : list ascii) : list ascii :=
  match s with
  | [] => []
  | c :: s' => if mem_char c chars then lstrip_list chars s' else s
  end.

(** [s.strip(chars)] *)
Definition strip (chars : string) (s : string) : string :=
  string_of_list_ascii
    (rev (lstrip_list chars
            (rev (lstrip_list chars (list_ascii_of_string s))))).

Fixpoint split_go (cur : option string) (s : string) : list string :=
  match s with
  | EmptyString =>
      match cur with Some t => [t] | None => [] end
  | String c s' =>
      if is_space c then
        match cur with
        | Some t => t :: split_go None s'
        | None => split_go None s'
        end
      else
        split_go
          (Some (match cur with
                 | Some t => (t ++ String c EmptyString)%string
                 | None => String c EmptyString
                 end)) s'
  end.

(** [s.split()] *)
Definition split (s : string) : list string := split_go None s.

(** [str(z)] *)
Definition str_int (z : Z) : string := pretty z.

End PyStr.

(** ** Data model *)

(** One row of the input table. *)
Record Row : Type := { unit_id : Z; spike_times : string }.

(** [pretty_midi.Note]; [end_] is its field [end]. *)
Record Note : Type :=
  { velocity : Z; pitch : Z; start : float; end_ : float }.

(** [pretty_midi.Instrument] *)
Record Instrument : Type :=
  { program : Z; name : string; notes : list Note }.

(** [pretty_midi.PrettyMIDI] *)
Record PrettyMIDI : Type :=
  { initial_tempo : Z; instruments : list Instrument }.

(** The module-level configuration of [parquet_to_midi.py] that
    [get_pitch_for_unit] reads. *)
Record config : Type :=
  { CUSTOM_PITCHES : gmap Z Z;
    DEFAULT_PITCH : Z;
    PITCH_RANGE : Z * Z;
    OCTAVE_SPREAD : Z;
    MAX_UNITS : Z }.

(** The values written in the source. *)
Definition source_config : config :=
  {| CUSTOM_PITCHES :=
       list_to_map [(0, 60); (1, 64); (2, 67); (3, 72); (4, 55); (5, 69)];
     DEFAULT_PITCH := 60;
     PITCH_RANGE := (48, 84);
     OCTAVE_SPREAD := 12;
     MAX_UNITS := 16 |}.

Definition PARQUET_FILE : string := "spike_times_output.parquet".
Definition OUTPUT_MIDI : string := "spikes_sonified.mid".
(** [0.1] and [0.05], as the binary64 numbers the literals denote. *)
Definition TIME_SCALE : float := 0x1.999999999999ap-4.
Definition NOTE_DURATION : float := 0x1.999999999999ap-5.
Definition BASE_VELOCITY : Z := 80.
Definition UNITS_TO_SONIFY : option (list Z) := None.

(** ** External collaborators *)

(** NumPy's legacy generator, seen through the two operations the program
    uses: seeding the Mersenne Twister from a 32-bit value, and drawing a
    bounded integer.  [rng_bounded s r] is a draw from [0 .. r]. *)
Class BitGenerator : Type :=
  { rng_state : Type;
    rng_seed : Z -> rng_state;
    rng_bounded : rng_state -> Z -> Z * rng_state;
    rng_bounded_range :
      forall (s : rng_state) (r : Z), 0 <= r -> 0 <= (rng_bounded s r).1 <= r }.

(** One invocation of a synthesizer of [pretty_midi]. *)
Inductive synth_call : Type :=
| CallFluidsynth (fs : Z) (synthesizer : option string)
| CallSynthesize (fs : Z).

(** Number of invocations of the built-in synthesizer in a trace. *)
Fixpoint builtin_calls (calls : list synth_call) : nat :=
  match calls with
  | [] => 0
  | CallSynthesize _ :: rest => S (builtin_calls rest)
  | CallFluidsynth _ _ :: rest => builtin_calls rest
  end.

(** What the libraries around the program answer: the table reader, the
    row selection of a data frame, the parsing and the formatting of floats,
    the MIDI reader, the two synthesizers with their failures, and the cast
    of a float64 to int16. *)
Class Externals : Type :=
  { read_parquet_outcome : string -> result (list Row);
    df_getitem_outcome : list Row -> list Z -> result (list Row);
    float_outcome : string -> result float;
    format_float : string -> float -> string;
    load_midi_outcome : string -> result PrettyMIDI;
    fluidsynth_outcome : PrettyMIDI -> Z -> option string -> result (list float);
    synthesize_outcome : PrettyMIDI -> Z -> result (list float);
    astype_int16 : float -> Z }.

(** ** The world and the monad of the scripts *)

Section Program.

Context {G : BitGenerator} {E : Externals}.

Record world : Type :=
  World
    { stdout : list string;
      midi_written : list (string * PrettyMIDI);
      wav_written : list (string * (Z * list Z));
      np_random : rng_state;
      synth_calls : list synth_call }.

Definition M (A : Type) : Type := world -> result A * world.

#[global] Instance M_ret : MRet M := fun A a w => (Ok a, w).

#[global] Instance M_bind : MBind M := fun A B k m w =>
  match m w with
  | (Ok a, w') => k a w'
  | (Raise e, w') => (Raise e, w')
  end.

Definition lift {A : Type} (r : result A) : M A := fun w => (r, w).

(** [try: body  except classes as e: handler e] *)
Definition try_except {A : Type} (body : M A) (classes : list exc_class)
    (handler : exn -> M A) : M A :=
  fun w =>
    match body w with
    | (Ok a, w') => (Ok a, w')
    | (Raise e, w') =>
        if isinstance e classes then handler e w' else (Raise e, w')
    end.

Definition print (line : string) : M unit :=
  fun w =>
    (Ok tt,
     {| stdout := stdout w ++ [line];
        midi_written := midi_written w;
        wav_written := wav_written w;
        np_random := np_random w;
        synth_calls := synth_calls w |}).

(** [np.random.seed(seed)] on the global generator. *)
Definition np_random_seed (seed : Z) : M unit :=
  fun w =>
    if (seed <? 0) || (2 ^ 32 - 1 <? seed) then
      (Raise (Exn ValueError "Seed must be between 0 and 2**32 - 1"), w)
    else
      (Ok tt,
       {| stdout := stdout w;
          midi_written := midi_written w;
          wav_written := wav_written w;
          np_random := rng_seed seed;
          synth_calls := synth_calls w |}).

(** [np.random.randint(low, high)]: a draw from [low .. high - 1], of the
    64-bit integer type. *)
Definition np_random_randint (low high : Z) : M Z :=
  fun w =>
    if low <? - 2 ^ 63 then
      (Raise (Exn ValueError "low is out of bounds for int64"), w)
    else if 2 ^ 63 <? high then
      (Raise (Exn ValueError "high is out of bounds for int64"), w)
    else if high <=? low then
      (Raise (Exn ValueError "low >= high"), w)
    else
      let '(v, s) := rng_bounded (np_random w) (high - 1 - low) in
      (Ok (low + v),
       {| stdout := stdout w;
          midi_written := midi_written w;
          wav_written := wav_written w;
          np_random := s;
          synth_calls := synth_calls w |}).

(** ** [parquet_to_midi.py] *)

Definition parse_spike_times (spike_times_str : string)
  : result (list float) :=
  let cleaned := PyStr.strip "[]" spike_times_str in
  let values := PyStr.split cleaned in
  fold_right
    (fun v acc =>
       result_bind (float_outcome v) (fun x =>
       result_bind acc (fun xs => Ok (x :: xs))))
    (Ok []) values.

Definition get_pitch_for_unit (cfg : config) (unit_idx unit_id : Z)
    (spike_times : list float) (mode : string) : M Z :=
  if String.eqb mode "custom" then
    mret (default (DEFAULT_PITCH cfg) (CUSTOM_PITCHES cfg !! unit_idx))
  else if String.eqb mode "spread" then
    let '(min_pitch, max_pitch) := PITCH_RANGE cfg in
    normalized ←
      lift (PyNum.int_true_div unit_idx (Z.max (MAX_UNITS cfg - 1) 1));
    scaled ← lift (PyNum.float_mul_int normalized (max_pitch - min_pitch));
    total ← lift (PyNum.int_add_float min_pitch scaled);
    lift (PyNum.int_of_float total)
  else if String.eqb mode "octaves" then
    let base := 48 in
    let octave := (unit_idx `div` 12) * 12 in
    let note_in_octave := unit_idx `mod` 12 in
    mret (base + octave + note_in_octave)
  else if String.eqb mode "firing_rate" then
    if 0 <? Z.of_nat (length spike_times) then
      last ← lift (PyNum.getitem spike_times (-1));
      first ← lift (PyNum.getitem spike_times 0);
      let duration := (last - first)%float in
      firing_rate ←
        (if (0 <? duration)%float then
           n ← lift (PyNum.float_of_int (Z.of_nat (length spike_times)));
           mret (n / duration)%float
         else mret 0%float);
      let '(min_pitch, max_pitch) := PITCH_RANGE cfg in
      let normalized := PyNum.py_min (firing_rate / 50)%float 1%float in
      scaled ← lift (PyNum.float_mul_int normalized (max_pitch - min_pitch));
      total ← lift (PyNum.int_add_float min_pitch scaled);
      lift (PyNum.int_of_float total)
    else mret (DEFAULT_PITCH cfg)
  else if String.eqb mode "random" then
    np_random_seed unit_id;;
    let '(min_pitch, max_pitch) := PITCH_RANGE cfg in
    np_random_randint min_pitch (max_pitch + 1)
  else
    mret (DEFAULT_PITCH cfg).

Definition nl : string := String (ascii_of_nat 10) EmptyString.

(** [pretty_midi.note_number_to_name] on an integer note number. *)
Definition note_number_to_name (note_number : Z) : string :=
  let semis :=
    ["C"; "C#"; "D"; "D#"; "E"; "F"; "F#"; "G"; "G#"; "A"; "A#"; "B"] in
  (default "" (semis !! Z.to_nat (note_number `mod` 12))
   ++ PyStr.str_int (note_number `div` 12 - 1))%string.

(** [pm.write(path)]: the document as it is at the call is stored. *)
Definition pm_write (pm : PrettyMIDI) (path : string) : M unit :=
  fun w =>
    (Ok tt,
     {| stdout := stdout w;
        midi_written := midi_written w ++ [(path, pm)];
        wav_written := wav_written w;
        np_random := np_random w;
        synth_calls := synth_calls w |}).

(** [instrument.notes.append(note)] *)
Definition append_note (instrument : Instrument) (note : Note) : Instrument :=
  {| program := program instrument;
     name := name instrument;
     notes := notes instrument ++ [note] |}.

(** The body of the loop over the rows of the table. *)
Definition process_unit (cfg : config) (time_scale note_duration : float)
    (base_velocity : Z) (pitch_mode : string)
    (idx : Z) (row : Row) (pm : PrettyMIDI) : M PrettyMIDI :=
  let unit_id := unit_id row in
  let spike_times_str := spike_times row in
  spike_times ← lift (parse_spike_times spike_times_str);
  let spike_times_scaled :=
    map (fun x => (x * time_scale)%float) spike_times in
  pitch ← get_pitch_for_unit cfg idx unit_id spike_times pitch_mode;
  let program := idx `mod` 128 in
  let instrument :=
    {| program := program;
       name := ("Unit_" ++ PyStr.str_int unit_id)%string;
       notes := [] |} in
  print ("  Unit " ++ PyStr.str_int idx ++ " (ID=" ++ PyStr.str_int unit_id
         ++ "): " ++ PyStr.str_int (Z.of_nat (length spike_times))
         ++ " spikes, pitch=" ++ PyStr.str_int pitch
         ++ " (" ++ note_number_to_name pitch ++ "), program="
         ++ PyStr.str_int program)%string;;
  let instrument :=
    fold_left
      (fun instrument spike_time =>
         let note :=
           {| velocity := base_velocity;
              pitch := pitch;
              start := spike_time;
              end_ := (spike_time + note_duration)%float |} in
         append_note instrument note)
      spike_times_scaled instrument in
  mret {| initial_tempo := initial_tempo pm;
          instruments := instruments pm ++ [instrument] |}.

(** [for idx, row in enumerate(...)], from position [idx] on. *)
Fixpoint process_units (cfg : config) (time_scale note_duration : float)
    (base_velocity : Z) (pitch_mode : string)
    (idx : Z) (rows : list Row) (pm : PrettyMIDI) : M PrettyMIDI :=
  match rows with
  | [] => mret pm
  | row :: rest =>
      pm' ← process_unit cfg time_scale note_duration base_velocity
              pitch_mode idx row pm;
      process_units cfg time_scale note_duration base_velocity pitch_mode
        (idx + 1) rest pm'
  end.

Definition create_midi_from_spikes (cfg : config)
    (parquet_file output_midi : string)
    (time_scale note_duration : float) (base_velocity : Z)
    (units_to_sonify : option (list Z)) (max_units : Z)
    (pitch_mode : string) : M PrettyMIDI :=
  print ("Loading spike times from " ++ parquet_file ++ "...")%string;;
  df ← lift (read_parquet_outcome parquet_file);
  print ("Loaded " ++ PyStr.str_int (Z.of_nat (length df)) ++ " units" ++ nl)%string;;
  df ← match units_to_sonify with
       | Some selection =>
           df' ← lift (df_getitem_outcome df selection);
           print ("Filtered to " ++ PyStr.str_int (Z.of_nat (length df'))
                  ++ " specified units")%string;;
           mret df'
       | None => mret df
       end;
  df ← (if max_units <? Z.of_nat (length df) then
          print ("Limiting to first " ++ PyStr.str_int max_units ++ " units")%string;;
          mret (PyNum.slice_to df max_units)
        else mret df);
  let pm := {| initial_tempo := 120; instruments := [] |} in
  print (nl ++ "Pitch mode: " ++ pitch_mode)%string;;
  print "Processing units:";;
  pm ← process_units cfg time_scale note_duration base_velocity pitch_mode
         0 df pm;
  print (nl ++ "Saving MIDI to " ++ output_midi ++ "...")%string;;
  pm_write pm output_midi;;
  total_duration ←
    lift (PyNum.py_max_list
            (flat_map (fun inst => map end_ (notes inst)) (instruments pm)));
  let total_notes :=
    foldr Z.add 0 (map (fun inst => Z.of_nat (length (notes inst)))
                     (instruments pm)) in
  print (nl ++ "✓ MIDI file created successfully!")%string;;
  print ("  Total units: " ++ PyStr.str_int (Z.of_nat (length (instruments pm))))%string;;
  print ("  Total notes: " ++ PyStr.str_int total_notes)%string;;
  print ("  Duration: " ++ format_float ".2f" total_duration ++ " seconds")%string;;
  print ("  Time scale: " ++ format_float "" time_scale ++ "x")%string;;
  print ("  Pitch mode: " ++ pitch_mode)%string;;
  mret pm.

(** *** Notions for the properties of the converter *)

(** The rows the loop runs over: the table, or the selected rows, cut to
    [max_units] when longer. *)
Definition processed_units (selected : list Row) (max_units : Z)
  : list Row :=
  if max_units <? Z.of_nat (length selected)
  then PyNum.slice_to selected max_units else selected.


(** The notes of one unit: one per spike, at the scaled time. *)
Definition unit_notes (time_scale note_duration : float)
    (base_velocity p : Z) (spikes : list float) : list Note :=
  map (fun t =>
         {| velocity := base_velocity;
            pitch := p;
            start := (t * time_scale)%float;
            end_ := (t * time_scale + note_duration)%float |}) spikes.

(** ** [midi_to_wave.py] and [midi_to_wave_suyee.py] *)

Definition SAMPLE_RATE : Z := 44100.

Definition log_call (c : synth_call) (w : world) : world :=
  {| stdout := stdout w;
     midi_written := midi_written w;
     wav_written := wav_written w;
     np_random := np_random w;
     synth_calls := synth_calls w ++ [c] |}.

(** [pretty_midi.PrettyMIDI(midi_file)] *)
Definition PrettyMIDI_load (midi_file : string) : M PrettyMIDI :=
  lift (load_midi_outcome midi_file).

(** [pm.fluidsynth(fs=fs)] and [pm.fluidsynth(fs=fs, synthesizer=path)] *)
Definition pm_fluidsynth (pm : PrettyMIDI) (fs : Z)
    (synthesizer : option string) : M (list float) :=
  fun w => (fluidsynth_outcome pm fs synthesizer,
            log_call (CallFluidsynth fs synthesizer) w).

(** [pm.synthesize(fs=fs)] *)
Definition pm_synthesize (pm : PrettyMIDI) (fs : Z) : M (list float) :=
  fun w => (synthesize_outcome pm fs, log_call (CallSynthesize fs) w).

(** [scipy.io.wavfile.write(path, rate, data)] *)
Definition wavfile_write (path : string) (rate : Z) (data : list Z)
  : M unit :=
  fun w =>
    (Ok tt,
     {| stdout := stdout w;
        midi_written := midi_written w;
        wav_written := wav_written w ++ [(path, (rate, data))];
        np_random := np_random w;
        synth_calls := synth_calls w |}).

(** [audio_data / np.max(np.abs(audio_data))] *)
Definition normalize (audio_data : list float) : result (list float) :=
  result_bind (PyNum.np_max (map PrimFloat.abs audio_data)) (fun peak =>
  Ok (map (fun x => (x / peak)%float) audio_data)).

(** [(audio_data * 32767).astype(np.int16)] *)
Definition to_pcm16 (audio_data : list float) : list Z :=
  map (fun x => astype_int16 (x * 32767)%float) audio_data.

(** The tail shared by the two renderers: write the file and report. *)
Definition save_and_report (output_wav : string) (sample_rate : Z)
    (audio_data : list Z) : M unit :=
  print ("Saving to " ++ output_wav ++ "...")%string;;
  wavfile_write output_wav sample_rate audio_data;;
  duration ← lift (PyNum.int_true_div (Z.of_nat (length audio_data)) sample_rate);
  print (nl ++ "✓ Audio file created!")%string;;
  print ("  Duration: " ++ format_float ".2f" duration ++ " seconds")%string;;
  print ("  Sample rate: " ++ PyStr.str_int sample_rate ++ " Hz")%string;;
  print ("  File: " ++ output_wav)%string;;
  print (nl ++ "You can now play this in any audio player!")%string.

Definition midi_to_wav (midi_file output_wav : string) (sample_rate : Z)
  : M unit :=
  print ("Loading MIDI file: " ++ midi_file)%string;;
  pm ← PrettyMIDI_load midi_file;
  print "Synthesizing audio (this may take a moment)...";;
  audio_data ← pm_fluidsynth pm sample_rate None;
  audio_data ← lift (normalize audio_data);
  let audio_data := to_pcm16 audio_data in
  save_and_report output_wav sample_rate audio_data.

(** The three-step synthesis of [midi_to_wav_suyee]. *)
Definition synthesize_with_fallback (pm : PrettyMIDI) (sample_rate : Z)
  : M (list float) :=
  try_except
    (audio_data ← pm_fluidsynth pm sample_rate (Some "./CindyBells.sf2");
     print "Using FluidSynth with CindyBells.sf2";;
     mret audio_data)
    [ImportError; OSError; Exception]
    (fun e =>
       print ("FluidSynth not available (" ++ exn_msg e ++ ")")%string;;
       try_except
         (audio_data ← pm_fluidsynth pm sample_rate None;
          print "Using FluidSynth with default soundfont";;
          mret audio_data)
         [ImportError; OSError; Exception]
         (fun _ =>
            print "Using built-in synthesizer (no FluidSynth)";;
            pm_synthesize pm sample_rate)).

Definition midi_to_wav_suyee (midi_file output_wav : string)
    (sample_rate : Z) : M unit :=
  print ("Loading MIDI file: " ++ midi_file)%string;;
  pm ← PrettyMIDI_load midi_file;
  print "Synthesizing audio (this may take a moment)...";;
  audio_data ← synthesize_with_fallback pm sample_rate;
  if 0 <? Z.of_nat (length audio_data) then
    audio_data ← lift (normalize audio_data);
    let audio_data := to_pcm16 audio_data in
    save_and_report output_wav sample_rate audio_data
  else
    print "Warning: No audio data generated!".

End Program.

(** ** The pitch formulas in the words of the specification *)

Module Spec.

(** Linear interpolation of a position into [[min_pitch, max_pitch]],
    truncated to an integer. *)
Definition interpolate (min_pitch max_pitch : Z) (position : float)
  : result Z :=
  result_bind (PyNum.float_mul_int position (max_pitch - min_pitch))
    (fun offset =>
  result_bind (PyNum.int_add_float min_pitch offset) PyNum.int_of_float).

(** [spread]: the position of index [i] is [i / max(max_units - 1, 1)]. *)
Definition spread_pitch (min_pitch max_pitch max_units i : Z) : result Z :=
  result_bind (PyNum.int_true_div i (Z.max (max_units - 1) 1))
    (interpolate min_pitch max_pitch).

(** Firing rate: count / (last - first) when that duration is positive,
    and 0 otherwise. *)
Definition firing_rate (count : Z) (first last : float) : result float :=
  if (0 <? last - first)%float then
    result_bind (PyNum.float_of_int count)
      (fun n => Ok (n / (last - first))%float)
  else Ok 0%float.



(** An ordered list of strategies, each a success or a failure: the first
    success wins, and with none the last failure stands. *)
Fixpoint first_success {A : Type} (first : result A)
    (others : list (result A)) : result A :=
  match first, others with
  | Ok a, _ => Ok a
  | Raise e, [] => Raise e
  | Raise _, next :: rest => first_success next rest
  end.

End Spec.

(** ** Notions for the statements *)

(** A string of white space only. *)
Definition all_space (s : string) : bool :=
  forallb PyStr.is_space (list_ascii_of_string s).

(** A token: not empty, of ASCII characters, and free of white space and
    of brackets. *)
Definition clean_token (t : string) : bool :=
  negb (String.eqb t "")
  && forallb (fun c => (N_of_ascii c <? 128)%N
                       && negb (PyStr.is_space c)
                       && negb (PyStr.mem_char c "[]"))
       (list_ascii_of_string t).

(** A first token and more tokens, each after its separator. *)
Definition spaced_tokens (first : string) (more : list (string * string))
  : string :=
  (first ++ fold_right (fun st acc => st.1 ++ st.2 ++ acc) "" more)%string.

(** The separators are white space, not empty, and the tokens are clean. *)
Definition well_spaced (more : list (string * string)) : bool :=
  forallb (fun st => negb (String.eqb st.1 "") && all_space st.1
                     && clean_token st.2) more.

(** [float] on every token, from left to right, all or nothing. *)
Fixpoint convert_all {E : Externals} (tokens : list string)
  : result (list float) :=
  match tokens with
  | [] => Ok []
  | t :: rest =>
      match float_outcome t with
      | Raise e => Raise e
      | Ok x =>
          match convert_all rest with
          | Raise e => Raise e
          | Ok xs => Ok (x :: xs)
          end
      end
  end.

(** A finite, non-zero float. *)
Definition is_finite_nonzero (x : float) : Prop :=
  exists (s : bool) (m : positive) (e : Z), Prim2SF x = S754_finite s m e.

(** Interpolation at positions 0 and 1 gives the two ends of the range. *)
Definition interpolate_ends_hold (lo hi : Z) : bool :=
  match Spec.interpolate lo hi 0, Spec.interpolate lo hi 1 with
  | Ok a, Ok b => (a =? lo) && (b =? hi)
  | _, _ => false
  end.

(** The instrument built for one row. *)
Definition unit_instrument (time_scale note_duration : float)
    (base_velocity idx p : Z) (row : Row) (spikes : list float)
  : Instrument :=
  {| program := idx `mod` 128;
     name := ("Unit_" ++ PyStr.str_int (unit_id row))%string;
     notes := unit_notes time_scale note_duration base_velocity p spikes |}.

(** [w'] differs from [w] in the files by at most one WAV file, written at
    [path] with rate [rate]. *)
Definition writes_at_most {G : BitGenerator} (path : string) (rate : Z)
    (w w' : world) : Prop :=
  midi_written w' = midi_written w
  /\ (wav_written w' = wav_written w
      \/ exists data : list Z,
           wav_written w' = wav_written w ++ [(path, (rate, data))]).

(** ** Sample collaborators, for the examples *)

Module Sample.

Lemma lcg_range (s r : Z) :
  0 <= r -> 0 <= ((1103515245 * s + 12345) `mod` (r + 1), s + 1).1 <= r.
Proof.
  intros Hr. simpl.
  pose proof (Z.mod_pos_bound (1103515245 * s + 12345) (r + 1)). lia.
Qed.

(** A linear congruential generator standing for NumPy's. *)
Definition lcg : BitGenerator :=
  {| rng_state := Z;
     rng_seed := fun seed => seed;
     rng_bounded := fun s r => ((1103515245 * s + 12345) `mod` (r + 1), s + 1);
     rng_bounded_range := lcg_range |}.

Definition digit_value (c : ascii) : option Z :=
  let n := Z.of_N (N_of_ascii c) in
  if (48 <=? n) && (n <=? 57) then Some (n - 48) else None.

Fixpoint read_decimal (s : string) (mant scale : Z)
    (after_point any_digit : bool) : option (Z * Z) :=
  match s with
  | EmptyString => if any_digit then Some (mant, scale) else None
  | String c s' =>
      if Ascii.eqb c "." then
        if after_point then None
        else read_decimal s' mant scale true any_digit
      else
        match digit_value c with
        | Some d =>
            read_decimal s' (10 * mant + d)
              (if after_point then 10 * scale else scale) after_point true
        | None => None
        end
  end.

(** A reader of plain decimals ([12], [1.5], [-0.25]), rounding
    correctly; anything else is refused as [float] refuses bad text. *)
Definition decimal_float (s : string) : result float :=
  let '(negative, body) :=
    match s with
    | String "-" s' => (true, s')
    | _ => (false, s)
    end in
  match read_decimal body 0 1 false false with
  | Some (m, k) => PyNum.int_true_div (if negative then - m else m) k
  | None => Raise (Exn ValueError "could not convert string to float")
  end.

(** A table of [n] units, identifiers [0 .. n-1], every row holding the
    same text. *)
Definition table (n : nat) (text : string) : list Row :=
  map (fun i => {| unit_id := i; spike_times := text |}) (seqZ 0 (Z.of_nat n)).

Definition tables (file : string) : result (list Row) :=
  if String.eqb file "three.parquet" then Ok (table 3 "[1.5]")
  else if String.eqb file "seventeen.parquet" then Ok (table 17 "[1.5]")
  else if String.eqb file "silent.parquet" then Ok (table 2 "[]")
  else Raise (Exn FileNotFoundError "No such file or directory").

Definition gather (df : list Row) (selection : list Z)
  : result (list Row) :=
  Ok (omap (fun i => df !! Z.to_nat i) selection).

Definition truncate_int16 (x : float) : Z :=
  match PyNum.int_of_float x with
  | Ok z => z
  | Raise _ => 0
  end.

(** Collaborators whose synthesizers answer as given. *)
Definition externals
    (fluid : option string -> result (list float))
    (builtin : result (list float)) : Externals :=
  {| read_parquet_outcome := tables;
     df_getitem_outcome := gather;
     float_outcome := decimal_float;
     format_float := fun _ _ => "<float>";
     load_midi_outcome :=
       fun _ => Ok {| initial_tempo := 120; instruments := [] |};
     fluidsynth_outcome := fun _ _ synthesizer => fluid synthesizer;
     synthesize_outcome := fun _ _ => builtin;
     astype_int16 := truncate_int16 |}.

(** No FluidSynth installed: both calls fail, the built-in synthesizer
    answers. *)
Definition no_fluidsynth : Externals :=
  externals
    (fun synthesizer =>
       match synthesizer with
       | Some _ => Raise (Exn ImportError "No module named 'fluidsynth'")
       | None => Raise (Exn OSError "libfluidsynth not found")
       end)
    (Ok [0.5; -0.25; 0.125]%float).

(** A document without instruments: FluidSynth answers the empty array. *)
Definition silent : Externals := externals (fun _ => Ok []) (Ok []).

(** FluidSynth answers three samples. *)
Definition sounding : Externals :=
  externals (fun _ => Ok [0.5; -0.25; 0.125]%float) (Ok []).

Definition world0 : world (G := lcg) :=
  {| stdout := [];
     midi_written := [];
     wav_written := [];
     np_random := rng_seed (BitGenerator := lcg) 0;
     synth_calls := [] |}.

(** No synthesizer at all: the three strategies fail. *)
Definition no_synthesizer : Externals :=
  externals
    (fun synthesizer =>
       match synthesizer with
       | Some _ => Raise (Exn ImportError "No module named 'fluidsynth'")
       | None => Raise (Exn OSError "libfluidsynth not found")
       end)
    (Raise (Exn ValueError "operands could not be broadcast together")).

(** A table whose texts have commas between the spike times, as [str] of a
    list writes them, and no MIDI file to read. *)
Definition comma_separated : Externals :=
  {| read_parquet_outcome := fun _ => Ok (table 2 "[1.5, 2.5]");
     df_getitem_outcome := gather;
     float_outcome := decimal_float;
     format_float := fun _ _ => "<float>";
     load_midi_outcome :=
       fun _ => Raise (Exn FileNotFoundError "No such file or directory");
     fluidsynth_outcome := fun _ _ _ => Ok [];
     synthesize_outcome := fun _ _ => Ok [];
     astype_int16 := truncate_int16 |}.

End Sample.

(** * Properties *)

(** ** Exceptions and the monad *)

Lemma issubclass_Exception (c : exc_class) : issubclass c Exception = true.
Proof.
  induction c as [|n base IH]; [reflexivity|].
  change (bool_decide (Derived n base = Exception)
          || issubclass base Exception = true).
  rewrite IH. apply orb_true_r.
Qed.

(** The clause [except (ImportError, OSError, Exception)] catches whatever
    was raised. *)
Lemma isinstance_catch_all (e : exn) :
  isinstance e [ImportError; OSError; Exception] = true.
Proof.
  unfold isinstance. simpl. rewrite issubclass_Exception.
  rewrite !orb_true_r. reflexivity.
Qed.

Section PitchPolicy.

Context {G : BitGenerator}.

(** ** The pitch policy *)

Lemma mode_neq_eqb (mode other : string) :
  mode <> other -> String.eqb mode other = false.
Proof. intros H. now apply String.eqb_neq. Qed.

(** C8. In [octaves] mode the pitch of every index is
    [48 + 12 * (index // 12) + index % 12]; index 0 gets 48, and index 12
    gets the pitch of index 0 plus 12. *)
Theorem octaves_pitch (cfg : config) (unit_idx unit_id : Z)
    (spike_times : list float) (w : world) :
  get_pitch_for_unit cfg unit_idx unit_id spike_times "octaves" w
  = (Ok (48 + 12 * (unit_idx `div` 12) + unit_idx `mod` 12), w)
  /\ get_pitch_for_unit cfg 0 unit_id spike_times "octaves" w = (Ok 48, w)
  /\ (forall p0 : Z,
        get_pitch_for_unit cfg 0 unit_id spike_times "octaves" w = (Ok p0, w) ->
        get_pitch_for_unit cfg 12 unit_id spike_times "octaves" w
        = (Ok (p0 + 12), w)).
Proof.
  assert (Hgen : forall i,
             get_pitch_for_unit cfg i unit_id spike_times "octaves" w
             = (Ok (48 + 12 * (i `div` 12) + i `mod` 12), w)).
  { intros i. unfold get_pitch_for_unit. simpl.
    unfold mret, M_ret. do 2 f_equal. lia. }
  split; [apply Hgen|]. split.
  - rewrite Hgen. reflexivity.
  - intros p0. rewrite !Hgen. intros Heq. inversion Heq. reflexivity.
Qed.

(** In [octaves] mode the pitch is the index moved up by 48. *)
Lemma octaves_pitch_linear (cfg : config) (unit_idx unit_id : Z)
    (spike_times : list float) (w : world) :
  get_pitch_for_unit cfg unit_idx unit_id spike_times "octaves" w
  = (Ok (48 + unit_idx), w).
Proof.
  unfold get_pitch_for_unit. simpl. unfold mret, M_ret. do 2 f_equal.
  pose proof (Z.div_mod unit_idx 12). lia.
Qed.

(** C9. A mode that is none of [custom], [spread], [octaves],
    [firing_rate], [random] yields the configured default pitch, whatever the
    index, identifier and spike sequence, and nothing is raised. *)
Theorem unrecognized_mode_default (cfg : config) (unit_idx unit_id : Z)
    (spike_times : list float) (mode : string) (w : world) :
  mode <> "custom" -> mode <> "spread" -> mode <> "octaves" ->
  mode <> "firing_rate" -> mode <> "random" ->
  get_pitch_for_unit cfg unit_idx unit_id spike_times mode w
  = (Ok (DEFAULT_PITCH cfg), w).
Proof.
  intros H1 H2 H3 H4 H5. unfold get_pitch_for_unit.
  rewrite (mode_neq_eqb _ _ H1), (mode_neq_eqb _ _ H2),
    (mode_neq_eqb _ _ H3), (mode_neq_eqb _ _ H4), (mode_neq_eqb _ _ H5).
  reflexivity.
Qed.

(** C2. With the configuration of the source, [octaves] mode at index 80
    returns 128, which is no MIDI pitch. *)
Theorem octaves_pitch_out_of_midi_range (unit_id : Z)
    (spike_times : list float) (w : world) :
  exists p : Z,
    get_pitch_for_unit source_config 80 unit_id spike_times "octaves" w
    = (Ok p, w)
    /\ ~ (0 <= p <= 127).
Proof.
  exists 128. split.
  - rewrite octaves_pitch_linear. reflexivity.
  - lia.
Qed.

(** [spread] mode leaves the range as well, from index 34 on. *)
Lemma spread_pitch_out_of_midi_range (unit_id : Z)
    (spike_times : list float) (w : world) :
  get_pitch_for_unit source_config 34 unit_id spike_times "spread" w
  = (Ok 129, w).
Proof. vm_compute. reflexivity. Qed.

(** *** [firing_rate] mode *)

Lemma getitem_first {A : Type} (x : A) (l : list A) :
  PyNum.getitem (x :: l) 0 = Ok x.
Proof.
  unfold PyNum.getitem. simpl length.
  replace (0 <? 0) with false by reflexivity.
  destruct (Z.leb_spec (Z.of_nat (S (length l))) 0) as [H|H]; [lia|].
  reflexivity.
Qed.

Lemma getitem_last {A : Type} (x : A) (l : list A) :
  PyNum.getitem (x :: l) (-1) = Ok (default x (last l)).
Proof.
  unfold PyNum.getitem. simpl length.
  replace (-1 <? 0) with true by reflexivity.
  destruct (Z.ltb_spec (-1 + Z.of_nat (S (length l))) 0) as [H|H]; [lia|].
  destruct (Z.leb_spec (Z.of_nat (S (length l)))
              (-1 + Z.of_nat (S (length l)))) as [H'|H']; [lia|].
  simpl orb. cbv iota.
  replace (Z.to_nat (-1 + Z.of_nat (S (length l)))) with (length l) by lia.
  destruct l as [|y l'] using rev_ind.
  - reflexivity.
  - rewrite last_snoc. simpl default.
    change (x :: l' ++ [y]) with ((x :: l') ++ [y]).
    rewrite length_app. simpl length.
    rewrite lookup_app_r by (simpl; lia).
    replace (length l' + 1 - length (x :: l'))%nat with 0%nat by (simpl; lia).
    reflexivity.
Qed.


(** Four spikes over two seconds, 2 Hz: pitch 49 in the source's range. *)
Example firing_rate_two_hertz (w : world) :
  get_pitch_for_unit source_config 0 7 [1; 1.5; 2.5; 3]%float "firing_rate" w
  = (Ok 49, w).
Proof. vm_compute. reflexivity. Qed.

(** A single spike has no duration: rate 0, the lowest pitch. *)
Example firing_rate_single_spike (w : world) :
  get_pitch_for_unit source_config 0 7 [1.5]%float "firing_rate" w
  = (Ok 48, w).
Proof. vm_compute. reflexivity. Qed.

(** *** [spread] mode *)


(** In [spread] mode the pitch is the specification's interpolation of
    the index, for every configuration and index. *)
Lemma spread_mode_pitch_formula (cfg : config) (unit_idx unit_id : Z)
    (spike_times : list float) (w : world) :
  get_pitch_for_unit cfg unit_idx unit_id spike_times "spread" w
  = (Spec.spread_pitch (PITCH_RANGE cfg).1 (PITCH_RANGE cfg).2
       (MAX_UNITS cfg) unit_idx, w).
Proof.
  unfold get_pitch_for_unit.
  change (String.eqb "spread" "custom") with false.
  change (String.eqb "spread" "spread") with true.
  cbv iota. destruct (PITCH_RANGE cfg) as [min_pitch max_pitch].
  unfold Spec.spread_pitch, Spec.interpolate, mbind, M_bind, lift,
    result_bind.
  simpl fst; simpl snd.
  destruct (PyNum.int_true_div _ _) as [normalized|e]; [|reflexivity].
  destruct (PyNum.float_mul_int _ _) as [scaled|e]; [|reflexivity].
  destruct (PyNum.int_add_float _ _) as [total|e]; reflexivity.
Qed.




(** *** [random] mode *)

(** Seeding forgets the generator's past: the outcome of [random] mode is
    the same from any two worlds, whether it is a pitch or a [ValueError]. *)
Lemma random_pitch_forgets_history (cfg : config)
    (idx1 idx2 unit_id : Z) (spikes1 spikes2 : list float) (w1 w2 : world) :
  (get_pitch_for_unit cfg idx1 unit_id spikes1 "random" w1).1
  = (get_pitch_for_unit cfg idx2 unit_id spikes2 "random" w2).1.
Proof.
  unfold get_pitch_for_unit.
  change (String.eqb "random" "custom") with false.
  change (String.eqb "random" "spread") with false.
  change (String.eqb "random" "octaves") with false.
  change (String.eqb "random" "firing_rate") with false.
  change (String.eqb "random" "random") with true.
  cbv iota. unfold mbind, M_bind, np_random_seed.
  destruct ((unit_id <? 0) || (2 ^ 32 - 1 <? unit_id)); [reflexivity|].
  destruct (PITCH_RANGE cfg) as [min_pitch max_pitch].
  unfold np_random_randint. cbn [np_random].
  destruct (min_pitch <? - 2 ^ 63); [reflexivity|].
  destruct (2 ^ 63 <? max_pitch + 1); [reflexivity|].
  destruct (max_pitch + 1 <=? min_pitch); [reflexivity|].
  destruct (rng_bounded (rng_seed unit_id) (max_pitch + 1 - 1 - min_pitch)).
  reflexivity.
Qed.

(** C6, as amended.  In [random] mode, for a unit identifier that is a
    32-bit seed and a pitch range with [min_pitch <= max_pitch] within the
    64-bit integers, every call with that identifier and range returns one
    and the same pitch, whatever the index, the spikes and the earlier state
    of the generator, and that pitch lies in [[min_pitch, max_pitch]]. *)
Theorem random_pitch_deterministic (cfg : config) (unit_id : Z) :
  0 <= unit_id <= 2 ^ 32 - 1 ->
  - 2 ^ 63 <= (PITCH_RANGE cfg).1 ->
  (PITCH_RANGE cfg).1 <= (PITCH_RANGE cfg).2 ->
  (PITCH_RANGE cfg).2 < 2 ^ 63 ->
  exists p : Z,
    (PITCH_RANGE cfg).1 <= p <= (PITCH_RANGE cfg).2
    /\ forall (unit_idx : Z) (spike_times : list float) (w : world),
         exists w' : world,
           get_pitch_for_unit cfg unit_idx unit_id spike_times "random" w
           = (Ok p, w').
Proof.
  destruct (PITCH_RANGE cfg) as [min_pitch max_pitch] eqn:Hrange.
  simpl fst; simpl snd. intros Hid Hlow Hle Hhigh.
  pose proof (rng_bounded_range (rng_seed unit_id)
                (max_pitch + 1 - 1 - min_pitch)) as Hdraw.
  destruct (rng_bounded (rng_seed unit_id) (max_pitch + 1 - 1 - min_pitch))
    as [v s] eqn:Hv.
  simpl in Hdraw.
  exists (min_pitch + v). split; [lia|].
  intros unit_idx spike_times w.
  unfold get_pitch_for_unit.
  change (String.eqb "random" "custom") with false.
  change (String.eqb "random" "spread") with false.
  change (String.eqb "random" "octaves") with false.
  change (String.eqb "random" "firing_rate") with false.
  change (String.eqb "random" "random") with true.
  cbv iota. unfold mbind, M_bind, np_random_seed.
  replace ((unit_id <? 0) || (2 ^ 32 - 1 <? unit_id)) with false
    by (symmetry; apply orb_false_iff; split; apply Z.ltb_ge; lia).
  rewrite Hrange. unfold np_random_randint. cbn [np_random].
  replace (min_pitch <? - 2 ^ 63) with false by (symmetry; apply Z.ltb_ge; lia).
  replace (2 ^ 63 <? max_pitch + 1) with false
    by (symmetry; apply Z.ltb_ge; lia).
  replace (max_pitch + 1 <=? min_pitch) with false
    by (symmetry; apply Z.leb_gt; lia).
  rewrite Hv. eexists. reflexivity.
Qed.

End PitchPolicy.


Lemma random_pitch_deterministic_witness :
  exists p : Z,
    (PITCH_RANGE source_config).1 <= p <= (PITCH_RANGE source_config).2
    /\ forall (unit_idx : Z) (spike_times : list float)
              (w : world (G := Sample.lcg)),
         exists w' : world,
           get_pitch_for_unit source_config unit_idx 42 spike_times "random" w
           = (Ok p, w').
Proof.
  apply (random_pitch_deterministic (G := Sample.lcg) source_config 42);
    simpl; lia.
Defined.

(** C6, as stated, fails: the identifier -1 is no seed, and the call raises
    instead of returning a pitch. *)
Lemma random_pitch_negative_identifier :
  get_pitch_for_unit source_config 0 (-1) [] "random" Sample.world0
  = (Raise (Exn ValueError "Seed must be between 0 and 2**32 - 1"),
     Sample.world0).
Proof. vm_compute. reflexivity. Qed.

(** ** Running the monad step by step *)

Section Steps.

Context {G : BitGenerator}.

Lemma M_bind_ok {A B : Type} (m : M A) (k : A -> M B) (w : world)
    (a : A) (w' : world) :
  m w = (Ok a, w') -> (m ≫= k) w = k a w'.
Proof. intros H. unfold mbind, M_bind. rewrite H. reflexivity. Qed.

Lemma M_bind_raise {A B : Type} (m : M A) (k : A -> M B) (w : world)
    (e : exn) (w' : world) :
  m w = (Raise e, w') -> (m ≫= k) w = (Raise e, w').
Proof. intros H. unfold mbind, M_bind. rewrite H. reflexivity. Qed.

(** [print] adds a line and touches no file. *)
Lemma print_run (line : string) (w : world) :
  exists w' : world,
    print line w = (Ok tt, w')
    /\ midi_written w' = midi_written w
    /\ wav_written w' = wav_written w.
Proof. eexists. repeat split; reflexivity. Qed.

End Steps.

Ltac run_print :=
  lazymatch goal with
  | |- context [@mbind _ _ _ _ ?k (print ?s) ?w0] =>
      let w1 := fresh "w" in
      let Hp := fresh "Hp" in
      let Hm := fresh "Hm" in
      let Hw := fresh "Hw" in
      destruct (print_run s w0) as (w1 & Hp & Hm & Hw);
      rewrite (M_bind_ok (print s) k w0 tt w1 Hp); cbv beta;
      clear Hp
  end.

Ltac run_with H :=
  lazymatch type of H with
  | ?m ?w0 = (Ok ?a, ?w1) =>
      lazymatch goal with
      | |- context [@mbind _ _ _ _ ?k m w0] =>
          rewrite (M_bind_ok m k w0 a w1 H); cbv beta
      end
  end.

(** ** The renderers *)

Lemma builtin_calls_app (xs ys : list synth_call) :
  builtin_calls (xs ++ ys) = (builtin_calls xs + builtin_calls ys)%nat.
Proof.
  induction xs as [|[fs sf|fs] xs IH]; simpl; [reflexivity|exact IH|].
  rewrite IH. reflexivity.
Qed.

Section Rendering.

Context {G : BitGenerator} {E : Externals}.

(** The outcome of the chain: the first success among the three
    strategies, in their order. *)
Lemma synthesize_with_fallback_outcome (pm : PrettyMIDI) (sample_rate : Z)
    (w : world) :
  (synthesize_with_fallback pm sample_rate w).1
  = Spec.first_success
      (fluidsynth_outcome pm sample_rate (Some "./CindyBells.sf2"))
      [fluidsynth_outcome pm sample_rate None;
       synthesize_outcome pm sample_rate].
Proof.
  unfold synthesize_with_fallback, try_except, pm_fluidsynth, pm_synthesize,
    mbind, M_bind, mret, M_ret, print, log_call.
  destruct (fluidsynth_outcome pm sample_rate (Some "./CindyBells.sf2"))
    as [audio|e1]; [reflexivity|].
  rewrite isinstance_catch_all.
  cbn [stdout midi_written wav_written np_random synth_calls].
  destruct (fluidsynth_outcome pm sample_rate None) as [audio|e2];
    [reflexivity|].
  rewrite isinstance_catch_all.
  destruct (synthesize_outcome pm sample_rate); reflexivity.
Qed.

(** C4. The synthesis of [midi_to_wav_suyee] yields what the first
    successful strategy yields, in the order soundfont, default bank,
    built-in; a failure of the first or the second call is caught whatever
    its class, and no later strategy runs after a success.  When both
    FluidSynth calls raise, the built-in synthesizer is invoked exactly
    once, and its outcome is the outcome of the chain. *)
Theorem fallback_chain (pm : PrettyMIDI) (sample_rate : Z) (w : world) :
  let out := synthesize_with_fallback pm sample_rate w in
  let first := CallFluidsynth sample_rate (Some "./CindyBells.sf2") in
  let second := CallFluidsynth sample_rate None in
  let third := CallSynthesize sample_rate in
  out.1
  = Spec.first_success
      (fluidsynth_outcome pm sample_rate (Some "./CindyBells.sf2"))
      [fluidsynth_outcome pm sample_rate None;
       synthesize_outcome pm sample_rate]
  /\ match fluidsynth_outcome pm sample_rate (Some "./CindyBells.sf2") with
     | Ok audio =>
         out.1 = Ok audio
         /\ synth_calls out.2 = synth_calls w ++ [first]
     | Raise e1 =>
         match fluidsynth_outcome pm sample_rate None with
         | Ok audio =>
             out.1 = Ok audio
             /\ synth_calls out.2 = synth_calls w ++ [first; second]
         | Raise e2 =>
             out.1 = synthesize_outcome pm sample_rate
             /\ synth_calls out.2 = synth_calls w ++ [first; second; third]
             /\ builtin_calls (synth_calls out.2)
                = S (builtin_calls (synth_calls w))
         end
     end.
Proof.
  unfold synthesize_with_fallback, try_except, pm_fluidsynth, pm_synthesize,
    mbind, M_bind, mret, M_ret, print, log_call.
  destruct (fluidsynth_outcome pm sample_rate (Some "./CindyBells.sf2"))
    as [audio|e1].
  - cbn. repeat split; reflexivity.
  - rewrite isinstance_catch_all.
    cbn [stdout midi_written wav_written np_random synth_calls].
    destruct (fluidsynth_outcome pm sample_rate None) as [audio|e2].
    + cbn. repeat split; try reflexivity.
      rewrite <- app_assoc. reflexivity.
    + rewrite isinstance_catch_all. cbn.
      split; [destruct (synthesize_outcome pm sample_rate); reflexivity|].
      split; [reflexivity|].
      rewrite <- !app_assoc. split; [reflexivity|].
      rewrite !builtin_calls_app. simpl. lia.
Qed.

(** The synthesis writes no file. *)
Lemma synthesize_with_fallback_frame (pm : PrettyMIDI) (sample_rate : Z)
    (w : world) :
  wav_written (synthesize_with_fallback pm sample_rate w).2 = wav_written w
  /\ midi_written (synthesize_with_fallback pm sample_rate w).2
     = midi_written w.
Proof.
  unfold synthesize_with_fallback, try_except, pm_fluidsynth, pm_synthesize,
    mbind, M_bind, mret, M_ret, print, log_call.
  destruct (fluidsynth_outcome pm sample_rate (Some "./CindyBells.sf2"))
    as [audio|e1]; [split; reflexivity|].
  rewrite isinstance_catch_all.
  cbn [stdout midi_written wav_written np_random synth_calls].
  destruct (fluidsynth_outcome pm sample_rate None) as [audio|e2];
    [split; reflexivity|].
  rewrite isinstance_catch_all. split; reflexivity.
Qed.

(** A failure of the last strategy is the failure of the chain. *)
Lemma fallback_chain_exhausted (pm : PrettyMIDI) (sample_rate : Z)
    (w : world) (e1 e2 e3 : exn) :
  fluidsynth_outcome pm sample_rate (Some "./CindyBells.sf2") = Raise e1 ->
  fluidsynth_outcome pm sample_rate None = Raise e2 ->
  synthesize_outcome pm sample_rate = Raise e3 ->
  (synthesize_with_fallback pm sample_rate w).1 = Raise e3.
Proof.
  intros H1 H2 H3.
  rewrite synthesize_with_fallback_outcome, H1, H2, H3. reflexivity.
Qed.

(** C3. When FluidSynth answers the empty array, [midi_to_wav] raises the
    [ValueError] of [np.max]: no warning is printed and no file is written. *)
Theorem midi_to_wav_empty_audio_raises (midi_file output_wav : string)
    (sample_rate : Z) (pm : PrettyMIDI) (w : world) :
  load_midi_outcome midi_file = Ok pm ->
  fluidsynth_outcome pm sample_rate None = Ok [] ->
  exists (e : exn) (w' : world),
    midi_to_wav midi_file output_wav sample_rate w = (Raise e, w')
    /\ exn_class e = ValueError
    /\ wav_written w' = wav_written w
    /\ stdout w'
       = stdout w ++ [("Loading MIDI file: " ++ midi_file)%string;
                      "Synthesizing audio (this may take a moment)..."].
Proof.
  intros Hload Hsynth.
  unfold midi_to_wav, PrettyMIDI_load, pm_fluidsynth, lift, mbind, M_bind,
    print, log_call.
  rewrite Hload. cbn [stdout midi_written wav_written np_random synth_calls].
  rewrite Hsynth. cbn.
  eexists _, _. split; [reflexivity|]. cbn.
  rewrite <- app_assoc. repeat split; reflexivity.
Qed.

(** X19. When the synthesis chain answers the empty array,
    [midi_to_wav_suyee] returns normally: the warning is the last line
    printed and no file is written. *)
Lemma midi_to_wav_suyee_empty_audio_warns (midi_file output_wav : string)
    (sample_rate : Z) (pm : PrettyMIDI) (w : world) :
  load_midi_outcome midi_file = Ok pm ->
  Spec.first_success
    (fluidsynth_outcome pm sample_rate (Some "./CindyBells.sf2"))
    [fluidsynth_outcome pm sample_rate None;
     synthesize_outcome pm sample_rate] = Ok [] ->
  exists w' : world,
    midi_to_wav_suyee midi_file output_wav sample_rate w = (Ok tt, w')
    /\ wav_written w' = wav_written w
    /\ last (stdout w') = Some "Warning: No audio data generated!".
Proof.
  intros Hload Hsynth.
  unfold midi_to_wav_suyee, PrettyMIDI_load, lift, mbind, M_bind.
  cbn [print fst snd]. rewrite Hload.
  match goal with
  | |- context [synthesize_with_fallback pm sample_rate ?w0] =>
      pose proof (synthesize_with_fallback_outcome pm sample_rate w0) as Hout;
      destruct (synthesize_with_fallback_frame pm sample_rate w0) as [Hw _];
      destruct (synthesize_with_fallback pm sample_rate w0) as [r w1]
  end.
  cbn [fst snd] in Hout, Hw. rewrite Hsynth in Hout. subst r. cbn.
  eexists. split; [reflexivity|]. cbn. split; [exact Hw|].
  apply last_snoc.
Qed.


(** The tail of both renderers writes the samples it is given. *)
Lemma save_and_report_writes (output_wav : string) (sample_rate : Z)
    (data : list Z) (w : world) :
  wav_written (save_and_report output_wav sample_rate data w).2
  = wav_written w ++ [(output_wav, (sample_rate, data))].
Proof.
  unfold save_and_report. run_print.
  assert (Hwr : exists w1 : world,
             wavfile_write output_wav sample_rate data w0 = (Ok tt, w1)
             /\ wav_written w1
                = wav_written w0 ++ [(output_wav, (sample_rate, data))])
    by (eexists; split; reflexivity).
  destruct Hwr as (w1 & Hwr & Hw1). run_with Hwr.
  destruct (PyNum.int_true_div (Z.of_nat (length data)) sample_rate)
    as [duration|e] eqn:Hdiv.
  - assert (Hd : lift (Ok duration) w1 = (Ok duration, w1)) by reflexivity.
    run_with Hd. run_print. run_print. run_print. run_print.
    destruct (print_run (nl ++ "You can now play this in any audio player!")
                w5) as (w6 & -> & _ & Hw6).
    cbn [snd]. congruence.
  - rewrite (M_bind_raise (lift (Raise e)) _ w1 e w1 eq_refl).
    cbn [snd]. congruence.
Qed.



End Rendering.

Lemma midi_to_wav_empty_audio_raises_witness :
  exists (e : exn) (w' : world),
    midi_to_wav (E := Sample.silent) "in.mid" "out.wav" 44100 Sample.world0
    = (Raise e, w')
    /\ exn_class e = ValueError
    /\ wav_written w' = wav_written Sample.world0
    /\ stdout w'
       = stdout Sample.world0
           ++ [("Loading MIDI file: " ++ "in.mid")%string;
               "Synthesizing audio (this may take a moment)..."].
Proof.
  apply (midi_to_wav_empty_audio_raises (G := Sample.lcg) (E := Sample.silent)
           "in.mid" "out.wav" 44100
           {| initial_tempo := 120; instruments := [] |} Sample.world0);
    reflexivity.
Defined.

(** Without FluidSynth the built-in synthesizer runs once and its three
    samples are written, normalized and cast. *)
Example midi_to_wav_suyee_without_fluidsynth :
  let out :=
    midi_to_wav_suyee (E := Sample.no_fluidsynth) "in.mid" "out.wav" 44100
      Sample.world0 in
  out.1 = Ok tt
  /\ synth_calls out.2
     = [CallFluidsynth 44100 (Some "./CindyBells.sf2");
        CallFluidsynth 44100 None; CallSynthesize 44100]
  /\ wav_written out.2 = [("out.wav", (44100, [32767; -16383; 8191]))].
Proof. vm_compute. repeat split; reflexivity. Qed.

(** ** The converter *)

Section Conversion.

Context {G : BitGenerator} {E : Externals}.

(** The pitch policy touches nothing but the generator. *)
Lemma get_pitch_for_unit_frame (cfg : config) (unit_idx unit_id : Z)
    (spike_times : list float) (mode : string) (w : world) :
  let w' := (get_pitch_for_unit cfg unit_idx unit_id spike_times mode w).2 in
  stdout w' = stdout w /\ midi_written w' = midi_written w
  /\ wav_written w' = wav_written w /\ synth_calls w' = synth_calls w.
Proof.
  unfold get_pitch_for_unit.
  destruct (String.eqb mode "custom"); [repeat split|].
  destruct (String.eqb mode "spread").
  { destruct (PITCH_RANGE cfg) as [lo hi].
    unfold mbind, M_bind, lift.
    destruct (PyNum.int_true_div _ _); [|repeat split].
    destruct (PyNum.float_mul_int _ _); [|repeat split].
    destruct (PyNum.int_add_float _ _); repeat split. }
  destruct (String.eqb mode "octaves"); [repeat split|].
  destruct (String.eqb mode "firing_rate").
  { destruct (0 <? Z.of_nat (length spike_times)); [|repeat split].
    unfold mbind, M_bind, lift, mret, M_ret.
    destruct (PyNum.getitem spike_times (-1)); [|repeat split].
    destruct (PyNum.getitem spike_times 0); [|repeat split].
    destruct (0 <? _)%float.
    - destruct (PyNum.float_of_int _); [|repeat split].
      destruct (PITCH_RANGE cfg) as [lo hi].
      destruct (PyNum.float_mul_int _ _); [|repeat split].
      destruct (PyNum.int_add_float _ _); repeat split.
    - destruct (PITCH_RANGE cfg) as [lo hi].
      destruct (PyNum.float_mul_int _ _); [|repeat split].
      destruct (PyNum.int_add_float _ _); repeat split. }
  destruct (String.eqb mode "random"); [|repeat split].
  unfold mbind, M_bind, np_random_seed.
  destruct ((unit_id <? 0) || (2 ^ 32 - 1 <? unit_id)); [repeat split|].
  destruct (PITCH_RANGE cfg) as [lo hi]. unfold np_random_randint.
  destruct (lo <? - 2 ^ 63); [repeat split|].
  destruct (2 ^ 63 <? hi + 1); [repeat split|].
  destruct (hi + 1 <=? lo); [repeat split|].
  cbn [np_random]. destruct (rng_bounded _ _). repeat split.
Qed.

Lemma fold_left_append_note (mk : float -> Note) (xs : list float)
    (inst : Instrument) :
  fold_left (fun instrument x => append_note instrument (mk x)) xs inst
  = {| program := program inst;
       name := name inst;
       notes := notes inst ++ map mk xs |}.
Proof.
  revert inst. induction xs as [|x xs IH]; intros inst; simpl.
  - rewrite app_nil_r. destruct inst; reflexivity.
  - rewrite IH. simpl. rewrite <- app_assoc. reflexivity.
Qed.





Lemma processed_units_take (selected : list Row) (max_units : Z) :
  0 <= max_units ->
  processed_units selected max_units
  = take (Z.to_nat (Z.min (Z.of_nat (length selected)) max_units)) selected.
Proof.
  intros Hmax. unfold processed_units, PyNum.slice_to.
  destruct (Z.ltb_spec max_units (Z.of_nat (length selected))) as [Hlt|Hge].
  - destruct (Z.ltb_spec max_units 0) as [?|_]; [lia|].
    rewrite (Z.min_comm max_units). reflexivity.
  - rewrite Z.min_l by lia. rewrite Nat2Z.id, firstn_all. reflexivity.
Qed.



End Conversion.


Lemma unrecognized_mode_default_witness :
  get_pitch_for_unit source_config 3 7 [] "banana" Sample.world0
  = (Ok (DEFAULT_PITCH source_config), Sample.world0).
Proof.
  apply (unrecognized_mode_default (G := Sample.lcg) source_config 3 7 []
           "banana" Sample.world0); discriminate.
Defined.




(** The example of the specification: unit 0 with spikes at 1.0 and 2.0,
    [custom] mode, time scale 0.1 and note duration 0.05, gives program 0
    and two notes of pitch 60 and velocity 80, starting at 0.1 and 0.2; the
    first ends at the binary64 sum of 0.1 and 0.05, the second at 0.25. *)
Example custom_unit_with_two_spikes :
  (process_unit (G := Sample.lcg) (E := Sample.silent) source_config
     TIME_SCALE NOTE_DURATION BASE_VELOCITY "custom" 0
     {| unit_id := 0; spike_times := "[1.0 2.0]" |}
     {| initial_tempo := 120; instruments := [] |} Sample.world0).1
  = Ok {| initial_tempo := 120;
          instruments :=
            [{| program := 0;
                name := "Unit_0";
                notes :=
                  [{| velocity := 80; pitch := 60;
                      start := 0x1.999999999999ap-4;
                      end_ := 0x1.3333333333334p-3 |};
                   {| velocity := 80; pitch := 60;
                      start := 0x1.999999999999ap-3;
                      end_ := 0.25 |}] |}] |}.
Proof. vm_compute. reflexivity. Qed.

(** With FluidSynth answering, [midi_to_wav] writes the normalized
    samples. *)
Example midi_to_wav_with_fluidsynth :
  wav_written
    (midi_to_wav (G := Sample.lcg) (E := Sample.sounding) "in.mid" "out.wav"
       SAMPLE_RATE Sample.world0).2
  = [("out.wav", (44100, [32767; -16383; 8191]))].
Proof. vm_compute. reflexivity. Qed.


(** * Further properties *)

(** ** Binary64 facts used below *)

Lemma Prim2SF_zero : Prim2SF 0 = S754_zero false.
Proof. reflexivity. Qed.

Lemma Prim2SF_one : Prim2SF 1 = S754_finite false 4503599627370496 (-52).
Proof. reflexivity. Qed.

(** The difference of a float with itself is never positive: it is zero
    for a finite float and NaN otherwise. *)
Lemma float_sub_diag_not_positive (t : float) : (0 <? t - t)%float = false.
Proof.
  rewrite ltb_spec, sub_spec, Prim2SF_zero. unfold SF64sub.
  destruct (Prim2SF t) as [s|s| |s m e]; simpl.
  - destruct s; reflexivity.
  - destruct s; reflexivity.
  - reflexivity.
  - rewrite Z.min_id. unfold shl_align. rewrite Z.sub_diag. simpl.
    reflexivity.
Qed.

Lemma SFdiv_core_diag (m : positive) (e : Z) :
  SFdiv_core_binary prec emax (Zpos m) e (Zpos m) e
  = (9007199254740992, -53, loc_Exact).
Proof.
  unfold SFdiv_core_binary. rewrite !Z.sub_diag.
  change (Z.min (fexp prec emax 0) 0) with (-53).
  change (0 - -53) with 53.
  cbv iota beta zeta.
  rewrite Z.shiftl_mul_pow2 by lia. rewrite Z.mul_comm.
  pose proof (Z.div_mul (2 ^ 53) (Z.pos m) ltac:(lia)) as Hq.
  pose proof (Z.mod_mul (2 ^ 53) (Z.pos m) ltac:(lia)) as Hr.
  unfold Z.div, Z.modulo in Hq, Hr.
  destruct (Z.div_eucl (2 ^ 53 * Z.pos m) (Z.pos m)) as [q r].
  subst q r. unfold new_location.
  destruct (Z.even (Z.pos m)); reflexivity.
Qed.

(** A finite non-zero float divided by its absolute value is 1 or -1. *)
Lemma float_div_abs_unit (x : float) :
  is_finite_nonzero x ->
  (x / abs x)%float = 1%float \/ (x / abs x)%float = (-1)%float.
Proof.
  intros (s & m & e & Hx).
  assert (H : Prim2SF (x / abs x)
              = S754_finite s 4503599627370496 (-52)).
  { rewrite div_spec, abs_spec, Hx. unfold SF64div, SFdiv, SFabs.
    rewrite SFdiv_core_diag. rewrite xorb_false_r. reflexivity. }
  destruct s.
  - right. apply Prim2SF_inj. rewrite H. reflexivity.
  - left. apply Prim2SF_inj. rewrite H. reflexivity.
Qed.


(** ** Peak normalization *)

(** [np.max] answers one of the elements of the array. *)
Lemma np_max_elem (xs : list float) (peak : float) :
  PyNum.np_max xs = Ok peak -> In peak xs.
Proof.
  destruct xs as [|x rest]; [discriminate|].
  intros H. injection H as <-.
  revert x. induction rest as [|y rest IH]; intros x; simpl.
  - left. reflexivity.
  - destruct (IH (PyNum.np_maximum x y)) as [Hhead|Htail].
    + unfold PyNum.np_maximum in Hhead at 1.
      destruct (PyNum.is_nan x); [left; exact Hhead|].
      destruct (PyNum.is_nan y); [right; left; exact Hhead|].
      destruct (x <? y)%float; [right; left|left]; exact Hhead.
    + right. right. exact Htail.
Qed.

Lemma abs_finite_nonzero (x : float) :
  is_finite_nonzero (abs x) -> is_finite_nonzero x.
Proof.
  intros (s & m & e & H). rewrite abs_spec in H.
  destruct (Prim2SF x) as [s'|s'| |s' m' e'] eqn:Hx; simpl in H;
    try discriminate.
  exists s', m', e'. exact Hx.
Qed.

(** X15. Normalization reaches full scale: when the peak of a buffer is a finite
    non-zero number, dividing by it turns some sample into 1.0 or -1.0, and
    no sample is lost. *)
Theorem normalize_reaches_full_scale (audio_data : list float)
    (peak : float) :
  PyNum.np_max (map abs audio_data) = Ok peak ->
  is_finite_nonzero peak ->
  exists normalized : list float,
    normalize audio_data = Ok normalized
    /\ length normalized = length audio_data
    /\ (In 1%float normalized \/ In (-1)%float normalized).
Proof.
  intros Hpeak Hfin. unfold normalize. rewrite Hpeak. cbn [result_bind].
  eexists. split; [reflexivity|]. split; [apply length_map|].
  apply np_max_elem in Hpeak. apply in_map_iff in Hpeak as (x & <- & Hx).
  destruct (float_div_abs_unit x (abs_finite_nonzero x Hfin)) as [H1|H1].
  - left. apply in_map_iff. exists x. split; assumption.
  - right. apply in_map_iff. exists x. split; assumption.
Qed.

(** X16. A buffer of zeros has peak zero, and every sample becomes 0/0: the
    normalized buffer of a silent rendering holds nothing but NaN. *)
Theorem normalize_silence_is_nan (audio_data : list float) :
  audio_data <> [] ->
  Forall (fun x => (x =? 0)%float = true) audio_data ->
  exists normalized : list float,
    normalize audio_data = Ok normalized
    /\ length normalized = length audio_data
    /\ Forall (fun y => PyNum.is_nan y = true) normalized.
Proof.
  intros Hne Hzero.
  assert (Hz : forall x, In x audio_data ->
                 exists s, Prim2SF x = S754_zero s).
  { intros x Hx. rewrite List.Forall_forall in Hzero.
    specialize (Hzero x Hx). rewrite FloatAxioms.eqb_spec, Prim2SF_zero in Hzero.
    destruct (Prim2SF x) as [s|s| |s m e]; try discriminate.
    - exists s. reflexivity.
    - destruct s; discriminate.
    - destruct s; discriminate. }
  destruct (PyNum.np_max (map abs audio_data)) as [peak|e] eqn:Hpeak.
  2:{ destruct audio_data; [congruence|discriminate]. }
  unfold normalize. rewrite Hpeak. cbn [result_bind].
  eexists. split; [reflexivity|]. split; [apply length_map|].
  apply np_max_elem in Hpeak. apply in_map_iff in Hpeak as (x0 & <- & Hx0).
  destruct (Hz x0 Hx0) as [s0 Hs0].
  apply List.Forall_forall. intros y Hy.
  apply in_map_iff in Hy as (x & <- & Hx).
  destruct (Hz x Hx) as [s Hs].
  unfold PyNum.is_nan.
  rewrite FloatAxioms.eqb_spec, div_spec, abs_spec, Hs, Hs0. reflexivity.
Qed.


(** ** The ends of the pitch range *)

Lemma interpolate_ends_table :
  forallb (fun lo => forallb (interpolate_ends_hold lo) (seqZ 0 128))
    (seqZ 0 128) = true.
Proof. vm_compute. reflexivity. Qed.

Lemma interpolate_ends (min_pitch max_pitch : Z) :
  0 <= min_pitch <= 127 -> 0 <= max_pitch <= 127 ->
  Spec.interpolate min_pitch max_pitch 0 = Ok min_pitch
  /\ Spec.interpolate min_pitch max_pitch 1 = Ok max_pitch.
Proof.
  intros Hlo Hhi.
  pose proof interpolate_ends_table as Htab.
  rewrite forallb_forall in Htab.
  assert (Hin : forall z, 0 <= z <= 127 -> In z (seqZ 0 128)).
  { intros z Hz. apply list_elem_of_In, elem_of_seqZ. lia. }
  specialize (Htab min_pitch (Hin _ Hlo)).
  rewrite forallb_forall in Htab.
  specialize (Htab max_pitch (Hin _ Hhi)).
  unfold interpolate_ends_hold in Htab.
  destruct (Spec.interpolate min_pitch max_pitch 0) as [a|]; [|discriminate].
  destruct (Spec.interpolate min_pitch max_pitch 1) as [b|]; [|discriminate].
  apply andb_true_iff in Htab as [Ha Hb].
  apply Z.eqb_eq in Ha, Hb. subst. split; reflexivity.
Qed.

Section PitchEnds.

Context {G : BitGenerator}.

(** The pitch of [firing_rate] mode from the rate, for a non-empty
    sequence. *)
Lemma firing_rate_pitch_of_rate (cfg : config) (unit_idx unit_id : Z)
    (first : float) (rest : list float) (w : world) :
  get_pitch_for_unit cfg unit_idx unit_id (first :: rest) "firing_rate" w
  = (result_bind
       (Spec.firing_rate (Z.of_nat (length (first :: rest))) first
          (default first (last rest)))
       (fun rate =>
          Spec.interpolate (PITCH_RANGE cfg).1 (PITCH_RANGE cfg).2
            (PyNum.py_min (rate / 50)%float 1%float)), w).
Proof.
  unfold get_pitch_for_unit.
  change (String.eqb "firing_rate" "custom") with false.
  change (String.eqb "firing_rate" "spread") with false.
  change (String.eqb "firing_rate" "octaves") with false.
  change (String.eqb "firing_rate" "firing_rate") with true.
  cbv iota.
  replace (0 <? Z.of_nat (length (first :: rest))) with true
    by (symmetry; apply Z.ltb_lt; simpl; lia).
  unfold mbind, M_bind, lift, mret, M_ret.
  rewrite getitem_last, getitem_first.
  unfold Spec.firing_rate, Spec.interpolate.
  destruct (PITCH_RANGE cfg) as [min_pitch max_pitch]. simpl fst; simpl snd.
  destruct (0 <? default first (last rest) - first)%float.
  - destruct (PyNum.float_of_int (Z.of_nat (length (first :: rest))))
      as [n|e]; [|reflexivity].
    unfold result_bind.
    destruct (PyNum.float_mul_int _ _) as [scaled|e]; [|reflexivity].
    destruct (PyNum.int_add_float _ _) as [total|e]; reflexivity.
  - unfold result_bind.
    destruct (PyNum.float_mul_int _ _) as [scaled|e]; [|reflexivity].
    destruct (PyNum.int_add_float _ _) as [total|e]; reflexivity.
Qed.

(** X7. A unit whose first and last spike coincide (a single spike, for one)
    has no duration: in [firing_rate] mode it gets the lowest pitch of the
    range, whatever the spike times are, infinities and NaN included. *)
Theorem firing_rate_without_duration (cfg : config) (unit_idx unit_id : Z)
    (first : float) (rest : list float) (w : world) :
  0 <= (PITCH_RANGE cfg).1 <= 127 ->
  0 <= (PITCH_RANGE cfg).2 <= 127 ->
  default first (last rest) = first ->
  get_pitch_for_unit cfg unit_idx unit_id (first :: rest) "firing_rate" w
  = (Ok (PITCH_RANGE cfg).1, w).
Proof.
  intros Hlo Hhi Hsame. rewrite firing_rate_pitch_of_rate, Hsame.
  unfold Spec.firing_rate. rewrite float_sub_diag_not_positive.
  cbn [result_bind].
  change (PyNum.py_min (0 / 50) 1) with 0%float.
  destruct (interpolate_ends _ _ Hlo Hhi) as [-> _]. reflexivity.
Qed.

Lemma float_one_leb_not_ltb (x : float) :
  (1 <=? x)%float = true -> (1 <? x)%float = false -> x = 1%float.
Proof.
  rewrite leb_spec, ltb_spec, Prim2SF_one. intros Hle Hlt.
  apply Prim2SF_inj. rewrite Prim2SF_one.
  destruct (Prim2SF x) as [s|s| |s m e]; try discriminate.
  - destruct s; discriminate.
  - destruct s; [discriminate|].
    unfold SFleb, SFltb, SFcompare in Hle, Hlt.
    destruct (Z.compare_spec (-52) e) as [He|He|He]; try discriminate.
    subst e.
    destruct (Pos.compare_cont Eq 4503599627370496 m) eqn:Hm;
      try discriminate.
    apply Pos.compare_eq in Hm. subst m. reflexivity.
Qed.

(** X8. The clamp at work: when the rate over 50.0 is 1.0 or more (50 spikes
    per second or more, an infinite rate included), [firing_rate] mode
    gives the highest pitch of the range. *)
Theorem firing_rate_saturates (cfg : config) (unit_idx unit_id : Z)
    (first : float) (rest : list float) (rate : float) (w : world) :
  0 <= (PITCH_RANGE cfg).1 <= 127 ->
  0 <= (PITCH_RANGE cfg).2 <= 127 ->
  Spec.firing_rate (Z.of_nat (length (first :: rest))) first
    (default first (last rest)) = Ok rate ->
  (1 <=? rate / 50)%float = true ->
  get_pitch_for_unit cfg unit_idx unit_id (first :: rest) "firing_rate" w
  = (Ok (PITCH_RANGE cfg).2, w).
Proof.
  intros Hlo Hhi Hrate Hsat. rewrite firing_rate_pitch_of_rate, Hrate.
  cbn [result_bind].
  assert (Hclamp : PyNum.py_min (rate / 50)%float 1%float = 1%float).
  { unfold PyNum.py_min.
    destruct (1 <? rate / 50)%float eqn:Hlt; [reflexivity|].
    apply float_one_leb_not_ltb; assumption. }
  rewrite Hclamp. destruct (interpolate_ends _ _ Hlo Hhi) as [_ ->].
  reflexivity.
Qed.

Lemma int_true_div_zero (d : Z) : 0 < d -> PyNum.int_true_div 0 d = Ok 0%float.
Proof.
  intros Hd. unfold PyNum.int_true_div.
  destruct (Z.eqb_spec d 0) as [?|_]; [lia|].
  destruct d as [|p|p]; try lia. reflexivity.
Qed.

Lemma int_true_div_diag (d : Z) : 0 < d -> PyNum.int_true_div d d = Ok 1%float.
Proof.
  intros Hd. unfold PyNum.int_true_div.
  destruct (Z.eqb_spec d 0) as [?|_]; [lia|].
  destruct d as [|p|p]; try lia.
  unfold PyNum.sf_of_int, SFdiv. rewrite SFdiv_core_diag. reflexivity.
Qed.

(** X5. [spread] mode reaches both ends of the range: index 0 gets the lowest
    pitch, and with at least two units the last index, [MAX_UNITS - 1],
    gets the highest. *)
Theorem spread_pitch_ends (cfg : config) (unit_id : Z)
    (spike_times : list float) (w : world) :
  0 <= (PITCH_RANGE cfg).1 <= 127 ->
  0 <= (PITCH_RANGE cfg).2 <= 127 ->
  get_pitch_for_unit cfg 0 unit_id spike_times "spread" w
  = (Ok (PITCH_RANGE cfg).1, w)
  /\ (2 <= MAX_UNITS cfg ->
      get_pitch_for_unit cfg (MAX_UNITS cfg - 1) unit_id spike_times
        "spread" w
      = (Ok (PITCH_RANGE cfg).2, w)).
Proof.
  intros Hlo Hhi. destruct (interpolate_ends _ _ Hlo Hhi) as [H0 H1].
  split.
  - rewrite spread_mode_pitch_formula. unfold Spec.spread_pitch.
    rewrite int_true_div_zero by lia. cbn [result_bind]. rewrite H0.
    reflexivity.
  - intros Hunits. rewrite spread_mode_pitch_formula.
    unfold Spec.spread_pitch. rewrite Z.max_l by lia.
    rewrite int_true_div_diag by lia. cbn [result_bind]. rewrite H1.
    reflexivity.
Qed.

End PitchEnds.


(** ** More on the pitch policy *)

Section PitchPolicyMore.

Context {G : BitGenerator}.

(** X4. [custom] mode yields a pitch of the table, or the default for an
    index that is no key: when the default and every pitch of the table are
    MIDI pitches, so is the result, for every index. *)
Theorem custom_pitch_is_midi (cfg : config) (unit_idx unit_id : Z)
    (spike_times : list float) (w : world) :
  0 <= DEFAULT_PITCH cfg <= 127 ->
  map_Forall (fun _ v => 0 <= v <= 127) (CUSTOM_PITCHES cfg) ->
  exists p : Z,
    get_pitch_for_unit cfg unit_idx unit_id spike_times "custom" w = (Ok p, w)
    /\ 0 <= p <= 127
    /\ (CUSTOM_PITCHES cfg !! unit_idx = Some p
        \/ CUSTOM_PITCHES cfg !! unit_idx = None /\ p = DEFAULT_PITCH cfg).
Proof.
  intros Hdef Htab. unfold get_pitch_for_unit.
  change (String.eqb "custom" "custom") with true. cbv iota.
  destruct (CUSTOM_PITCHES cfg !! unit_idx) as [v|] eqn:Hlook.
  - exists v. split; [reflexivity|]. split; [|left; reflexivity].
    exact (Htab unit_idx v Hlook).
  - exists (DEFAULT_PITCH cfg). split; [reflexivity|].
    split; [exact Hdef|right; split; reflexivity].
Qed.

(** X6. In [octaves] mode distinct indices get distinct pitches, and the pitch
    is a MIDI pitch exactly for the indices from -48 to 79. *)
Theorem octaves_pitch_valid_indices (cfg : config) (idx1 idx2 unit_id : Z)
    (spike_times : list float) (w : world) :
  exists p1 p2 : Z,
    get_pitch_for_unit cfg idx1 unit_id spike_times "octaves" w = (Ok p1, w)
    /\ get_pitch_for_unit cfg idx2 unit_id spike_times "octaves" w
       = (Ok p2, w)
    /\ (0 <= p1 <= 127 <-> -48 <= idx1 <= 79)
    /\ (p1 = p2 <-> idx1 = idx2)
    /\ (idx1 < idx2 <-> p1 < p2).
Proof.
  exists (48 + idx1), (48 + idx2). rewrite !octaves_pitch_linear.
  repeat split; lia.
Qed.

(** X9. Every mode but [random] leaves the world as it was, on success and on
    failure: nothing is printed, no file is touched and the generator keeps
    its state. *)
Theorem pitch_policy_without_effect (cfg : config) (unit_idx unit_id : Z)
    (spike_times : list float) (mode : string) (w : world) :
  mode <> "random" ->
  (get_pitch_for_unit cfg unit_idx unit_id spike_times mode w).2 = w.
Proof.
  intros Hmode. unfold get_pitch_for_unit.
  destruct (String.eqb mode "custom"); [reflexivity|].
  destruct (String.eqb mode "spread").
  { destruct (PITCH_RANGE cfg) as [lo hi]. unfold mbind, M_bind, lift.
    destruct (PyNum.int_true_div _ _); [|reflexivity].
    destruct (PyNum.float_mul_int _ _); [|reflexivity].
    destruct (PyNum.int_add_float _ _); reflexivity. }
  destruct (String.eqb mode "octaves"); [reflexivity|].
  destruct (String.eqb mode "firing_rate").
  { destruct (0 <? Z.of_nat (length spike_times)); [|reflexivity].
    unfold mbind, M_bind, lift, mret, M_ret.
    destruct (PyNum.getitem spike_times (-1)); [|reflexivity].
    destruct (PyNum.getitem spike_times 0); [|reflexivity].
    destruct (0 <? _)%float.
    - destruct (PyNum.float_of_int _); [|reflexivity].
      destruct (PITCH_RANGE cfg) as [lo hi].
      destruct (PyNum.float_mul_int _ _); [|reflexivity].
      destruct (PyNum.int_add_float _ _); reflexivity.
    - destruct (PITCH_RANGE cfg) as [lo hi].
      destruct (PyNum.float_mul_int _ _); [|reflexivity].
      destruct (PyNum.int_add_float _ _); reflexivity. }
  rewrite (mode_neq_eqb _ _ Hmode). reflexivity.
Qed.

(** X10. [random] mode reseeds the process-wide generator: after a call that
    returns a pitch, the state of the generator is the one a single draw
    leaves behind the seed [unit_id], whatever it was before, and nothing
    else of the world has changed. *)
Theorem random_pitch_reseeds_generator (cfg : config)
    (unit_idx unit_id p : Z) (spike_times : list float) (w w' : world) :
  get_pitch_for_unit cfg unit_idx unit_id spike_times "random" w
  = (Ok p, w') ->
  np_random w'
  = (rng_bounded (rng_seed unit_id)
       ((PITCH_RANGE cfg).2 + 1 - 1 - (PITCH_RANGE cfg).1)).2
  /\ stdout w' = stdout w
  /\ midi_written w' = midi_written w
  /\ wav_written w' = wav_written w
  /\ synth_calls w' = synth_calls w.
Proof.
  unfold get_pitch_for_unit.
  change (String.eqb "random" "custom") with false.
  change (String.eqb "random" "spread") with false.
  change (String.eqb "random" "octaves") with false.
  change (String.eqb "random" "firing_rate") with false.
  change (String.eqb "random" "random") with true.
  cbv iota. unfold mbind, M_bind, np_random_seed.
  destruct ((unit_id <? 0) || (2 ^ 32 - 1 <? unit_id)); [discriminate|].
  destruct (PITCH_RANGE cfg) as [min_pitch max_pitch].
  unfold np_random_randint. cbn [np_random fst snd].
  destruct (min_pitch <? - 2 ^ 63); [discriminate|].
  destruct (2 ^ 63 <? max_pitch + 1); [discriminate|].
  destruct (max_pitch + 1 <=? min_pitch); [discriminate|].
  destruct (rng_bounded (rng_seed unit_id) (max_pitch + 1 - 1 - min_pitch))
    as [v s].
  intros H. injection H as _ <-. repeat split; reflexivity.
Qed.

End PitchPolicyMore.

Lemma source_custom_pitches_are_midi :
  map_Forall (fun _ v => 0 <= v <= 127) (CUSTOM_PITCHES source_config).
Proof.
  intros k v Hk. unfold source_config, CUSTOM_PITCHES in Hk.
  simpl in Hk.
  repeat (apply lookup_insert_Some in Hk as [[_ <-]|[_ Hk]]; [lia|]).
  rewrite lookup_empty in Hk. discriminate.
Qed.

Lemma custom_pitch_is_midi_witness :
  exists p : Z,
    get_pitch_for_unit source_config 9 4 [] "custom" Sample.world0
    = (Ok p, Sample.world0)
    /\ 0 <= p <= 127
    /\ (CUSTOM_PITCHES source_config !! 9 = Some p
        \/ CUSTOM_PITCHES source_config !! 9 = None
           /\ p = DEFAULT_PITCH source_config).
Proof.
  apply (custom_pitch_is_midi (G := Sample.lcg) source_config 9 4 []
           Sample.world0).
  - simpl. lia.
  - exact source_custom_pitches_are_midi.
Defined.


(** ** The converter, for arbitrary tables *)

Section ConversionMore.

Context {G : BitGenerator} {E : Externals}.

(** What one pass of the loop body does, whatever its outcome. *)
Lemma process_unit_cases (cfg : config) (time_scale note_duration : float)
    (base_velocity : Z) (pitch_mode : string) (idx : Z) (row : Row)
    (pm : PrettyMIDI) (w : world) :
  let out :=
    process_unit cfg time_scale note_duration base_velocity pitch_mode idx
      row pm w in
  midi_written out.2 = midi_written w
  /\ wav_written out.2 = wav_written w
  /\ match parse_spike_times (spike_times row) with
     | Raise e => out.1 = Raise e
     | Ok spikes =>
         match get_pitch_for_unit cfg idx (unit_id row) spikes pitch_mode w
         with
         | (Raise e, _) => out.1 = Raise e
         | (Ok p, _) =>
             out.1
             = Ok {| initial_tempo := initial_tempo pm;
                     instruments :=
                       instruments pm
                       ++ [unit_instrument time_scale note_duration
                             base_velocity idx p row spikes] |}
         end
     end.
Proof.
  cbv zeta. unfold process_unit.
  destruct (parse_spike_times (spike_times row)) as [spikes|e] eqn:Hparse.
  2:{ unfold mbind, M_bind, lift. repeat split; reflexivity. }
  rewrite (M_bind_ok (lift (Ok spikes)) _ w spikes w eq_refl).
  pose proof (get_pitch_for_unit_frame cfg idx (unit_id row) spikes
                pitch_mode w) as (_ & Hm & Hw & _).
  destruct (get_pitch_for_unit cfg idx (unit_id row) spikes pitch_mode w)
    as [[p|e] w1] eqn:Hp; cbn [snd] in Hm, Hw.
  - run_with Hp. run_print. unfold mret, M_ret. cbn [fst snd].
    split; [congruence|]. split; [congruence|].
    rewrite fold_left_append_note. cbn [program name notes app].
    unfold unit_instrument, unit_notes. rewrite map_map. reflexivity.
  - rewrite (M_bind_raise _ _ w e w1 Hp). cbn [fst snd].
    repeat split; assumption.
Qed.

(** The loop: it writes nothing; when it completes, the document has one
    more instrument per row, in the order of the rows, each with the row's
    identifier in its name and one note per spike of the row, in the order
    of the spikes. *)
Lemma process_units_cases (cfg : config) (time_scale note_duration : float)
    (base_velocity : Z) (pitch_mode : string) (rows : list Row) :
  forall (idx : Z) (pm : PrettyMIDI) (w : world),
  let out :=
    process_units cfg time_scale note_duration base_velocity pitch_mode idx
      rows pm w in
  midi_written out.2 = midi_written w
  /\ wav_written out.2 = wav_written w
  /\ (forall pm' : PrettyMIDI, out.1 = Ok pm' ->
      initial_tempo pm' = initial_tempo pm
      /\ exists insts : list Instrument,
           instruments pm' = instruments pm ++ insts
           /\ Forall2
                (fun row inst =>
                   exists (spikes : list float) (p : Z),
                     parse_spike_times (spike_times row) = Ok spikes
                     /\ name inst
                        = ("Unit_" ++ PyStr.str_int (unit_id row))%string
                     /\ notes inst
                        = unit_notes time_scale note_duration base_velocity
                            p spikes)
                rows insts
           /\ forall (k : nat) (inst : Instrument), insts !! k = Some inst ->
                program inst = (idx + Z.of_nat k) `mod` 128).
Proof.
  induction rows as [|row rows IH]; intros idx pm w; cbv zeta.
  - simpl. split; [reflexivity|]. split; [reflexivity|].
    intros pm' H. injection H as <-. split; [reflexivity|].
    exists []. rewrite app_nil_r. split; [reflexivity|].
    split; [constructor|]. intros k inst Hk. discriminate.
  - cbn [process_units].
    pose proof (process_unit_cases cfg time_scale note_duration
                  base_velocity pitch_mode idx row pm w)
      as (Hm & Hw & Hcase).
    destruct (process_unit cfg time_scale note_duration base_velocity
                pitch_mode idx row pm w) as [[pm1|e] w1] eqn:Hstep;
      cbn [fst snd] in Hm, Hw, Hcase.
    2:{ rewrite (M_bind_raise _ _ w e w1 Hstep). cbn [fst snd].
        split; [exact Hm|]. split; [exact Hw|]. intros pm' H.
        discriminate. }
    rewrite (M_bind_ok _ _ w pm1 w1 Hstep).
    specialize (IH (idx + 1) pm1 w1). cbv zeta in IH.
    destruct IH as (Hm2 & Hw2 & Hok).
    split; [congruence|]. split; [congruence|].
    intros pm' Hpm'. destruct (Hok pm' Hpm')
      as (Htempo & insts & Hinsts & Hall & Hprog).
    destruct (parse_spike_times (spike_times row)) as [spikes|e] eqn:Hparse;
      [|discriminate].
    destruct (get_pitch_for_unit cfg idx (unit_id row) spikes pitch_mode w)
      as [[p|e] w0]; [|discriminate].
    injection Hcase as ->. cbn [initial_tempo instruments] in *.
    split; [exact Htempo|].
    exists (unit_instrument time_scale note_duration base_velocity idx p row
              spikes :: insts).
    split; [rewrite Hinsts, <- app_assoc; reflexivity|].
    split.
    + constructor; [|exact Hall]. exists spikes, p.
      split; [exact Hparse|]. split; reflexivity.
    + intros [|k] inst Hk.
      * injection Hk as <-. cbn [unit_instrument program]. f_equal. lia.
      * rewrite (Hprog k inst Hk). f_equal. lia.
Qed.

(** A row whose text does not parse stops the loop. *)
Lemma process_units_malformed (cfg : config)
    (time_scale note_duration : float) (base_velocity : Z)
    (pitch_mode : string) (rows : list Row) (bad : Row) (e : exn) :
  In bad rows ->
  parse_spike_times (spike_times bad) = Raise e ->
  forall (idx : Z) (pm : PrettyMIDI) (w : world),
  exists e' : exn,
    (process_units cfg time_scale note_duration base_velocity pitch_mode
       idx rows pm w).1 = Raise e'.
Proof.
  intros Hin Hbad idx pm w.
  destruct (process_units cfg time_scale note_duration base_velocity
              pitch_mode idx rows pm w) as [[pm'|e'] w'] eqn:Hrun.
  2:{ exists e'. reflexivity. }
  exfalso.
  pose proof (process_units_cases cfg time_scale note_duration base_velocity
                pitch_mode rows idx pm w) as (_ & _ & Hok).
  cbv zeta in Hok. rewrite Hrun in Hok.
  destruct (Hok pm' eq_refl) as (_ & insts & _ & Hall & _).
  clear -Hin Hbad Hall.
  induction Hall as [|row inst rows insts (sp & p & Hp & _) _ IH];
    [contradiction|].
  destruct Hin as [->|Hin]; [congruence|auto].
Qed.

(** The two ways a run of the converter can go: it raises before it has
    written anything, or it completes the loop, writes the document, and
    leaves the outcome to the summary. *)
Lemma create_midi_from_spikes_cases (cfg : config)
    (parquet_file output_midi : string) (time_scale note_duration : float)
    (base_velocity : Z) (units_to_sonify : option (list Z)) (max_units : Z)
    (pitch_mode : string) (w : world) :
  let out :=
    create_midi_from_spikes cfg parquet_file output_midi time_scale
      note_duration base_velocity units_to_sonify max_units pitch_mode w in
  wav_written out.2 = wav_written w
  /\ ((exists e : exn, out.1 = Raise e)
      /\ midi_written out.2 = midi_written w
      \/ exists (df selected : list Row) (pm : PrettyMIDI) (w0 : world),
           read_parquet_outcome parquet_file = Ok df
           /\ match units_to_sonify with
              | Some selection => df_getitem_outcome df selection
              | None => Ok df
              end = Ok selected
           /\ (process_units cfg time_scale note_duration base_velocity
                 pitch_mode 0 (processed_units selected max_units)
                 {| initial_tempo := 120; instruments := [] |} w0).1 = Ok pm
           /\ midi_written out.2 = midi_written w ++ [(output_midi, pm)]
           /\ out.1
              = result_bind
                  (PyNum.py_max_list
                     (flat_map (fun inst => map end_ (notes inst))
                        (instruments pm)))
                  (fun _ => Ok pm)).
Proof.
  cbv zeta. unfold create_midi_from_spikes. run_print.
  destruct (read_parquet_outcome parquet_file) as [df|e] eqn:Hread.
  2:{ rewrite (M_bind_raise (lift (Raise e)) _ w0 e w0 eq_refl).
      cbn [fst snd]. split; [exact Hw|]. left.
      split; [exists e; reflexivity|exact Hm]. }
  rewrite (M_bind_ok (lift (Ok df)) _ w0 df w0 eq_refl). run_print.
  assert (Hs : exists (r : result (list Row)) (w2 : world),
             match units_to_sonify with
             | Some selection =>
                 df' ← lift (df_getitem_outcome df selection);
                 print ("Filtered to "
                        ++ PyStr.str_int (Z.of_nat (length df'))
                        ++ " specified units")%string;;
                 mret df'
             | None => mret df
             end w1 = (r, w2)
             /\ r = match units_to_sonify with
                    | Some selection => df_getitem_outcome df selection
                    | None => Ok df
                    end
             /\ midi_written w2 = midi_written w1
             /\ wav_written w2 = wav_written w1).
  { destruct units_to_sonify as [selection|].
    - unfold mbind, M_bind, lift.
      destruct (df_getitem_outcome df selection) as [df'|e].
      + cbn [print]. unfold mret, M_ret. eexists _, _.
        repeat split; reflexivity.
      + eexists _, _. repeat split; reflexivity.
    - unfold mret, M_ret. eexists _, _. repeat split; reflexivity. }
  destruct Hs as (r & w2 & Hs & Hr & Hm2 & Hw2).
  destruct r as [selected|e].
  2:{ rewrite (M_bind_raise _ _ w1 e w2 Hs). cbn [fst snd].
      split; [congruence|]. left.
      split; [exists e; reflexivity|congruence]. }
  run_with Hs.
  assert (Hl : exists w3 : world,
             (if max_units <? Z.of_nat (length selected)
              then
                print ("Limiting to first " ++ PyStr.str_int max_units
                       ++ " units")%string;;
                mret (PyNum.slice_to selected max_units)
              else mret selected) w2
             = (Ok (processed_units selected max_units), w3)
             /\ midi_written w3 = midi_written w2
             /\ wav_written w3 = wav_written w2).
  { unfold processed_units.
    destruct (max_units <? Z.of_nat (length selected)).
    - unfold mbind, M_bind. cbn [print]. unfold mret, M_ret.
      eexists. repeat split; reflexivity.
    - unfold mret, M_ret. eexists. repeat split; reflexivity. }
  destruct Hl as (w3 & Hl & Hm3 & Hw3). run_with Hl.
  run_print. run_print.
  pose proof (process_units_cases cfg time_scale note_duration base_velocity
                pitch_mode (processed_units selected max_units) 0
                {| initial_tempo := 120; instruments := [] |} w5)
    as (Hm6 & Hw6 & _).
  destruct (process_units cfg time_scale note_duration base_velocity
              pitch_mode 0 (processed_units selected max_units)
              {| initial_tempo := 120; instruments := [] |} w5)
    as [[pm|e] w6] eqn:Hloop; cbn [fst snd] in Hm6, Hw6.
  2:{ rewrite (M_bind_raise _ _ w5 e w6 Hloop). cbn [fst snd].
      split; [congruence|]. left.
      split; [exists e; reflexivity|congruence]. }
  run_with Hloop. run_print.
  assert (Hwr : exists w8 : world,
             pm_write pm output_midi w7 = (Ok tt, w8)
             /\ midi_written w8 = midi_written w7 ++ [(output_midi, pm)]
             /\ wav_written w8 = wav_written w7)
    by (eexists; repeat split; reflexivity).
  destruct Hwr as (w8 & Hwr & Hm8 & Hw8). run_with Hwr.
  assert (Hmidi : midi_written w8 = midi_written w ++ [(output_midi, pm)])
    by congruence.
  assert (Hwav : wav_written w8 = wav_written w) by congruence.
  destruct (PyNum.py_max_list
              (flat_map (fun inst => map end_ (notes inst)) (instruments pm)))
    as [total_duration|e] eqn:Hmax.
  - rewrite (M_bind_ok (lift (Ok total_duration)) _ w8 total_duration w8
               eq_refl).
    run_print. run_print. run_print. run_print. run_print. run_print.
    unfold mret, M_ret. cbn [fst snd result_bind].
    split; [congruence|]. right. exists df, selected, pm, w5.
    split; [reflexivity|]. split; [symmetry; exact Hr|].
    split; [rewrite Hloop; reflexivity|]. split; [congruence|].
    rewrite Hmax. reflexivity.
  - rewrite (M_bind_raise (lift (Raise e)) _ w8 e w8 eq_refl).
    cbn [fst snd result_bind].
    split; [exact Hwav|]. right. exists df, selected, pm, w5.
    split; [reflexivity|]. split; [symmetry; exact Hr|].
    split; [rewrite Hloop; reflexivity|]. split; [exact Hmidi|].
    rewrite Hmax. reflexivity.
Qed.

(** X11. A run writes no WAV file and at most one MIDI file, at the path it was
    given; when it returns, the document it returns is the one it wrote, and
    that document holds at least one note. *)
Theorem create_midi_from_spikes_writes_what_it_returns (cfg : config)
    (parquet_file output_midi : string) (time_scale note_duration : float)
    (base_velocity : Z) (units_to_sonify : option (list Z)) (max_units : Z)
    (pitch_mode : string) (w : world) :
  let out :=
    create_midi_from_spikes cfg parquet_file output_midi time_scale
      note_duration base_velocity units_to_sonify max_units pitch_mode w in
  wav_written out.2 = wav_written w
  /\ (midi_written out.2 = midi_written w
      \/ exists pm : PrettyMIDI,
           midi_written out.2 = midi_written w ++ [(output_midi, pm)])
  /\ forall pm : PrettyMIDI, out.1 = Ok pm ->
       midi_written out.2 = midi_written w ++ [(output_midi, pm)]
       /\ exists inst : Instrument,
            In inst (instruments pm) /\ notes inst <> [].
Proof.
  pose proof (create_midi_from_spikes_cases cfg parquet_file output_midi
                time_scale note_duration base_velocity units_to_sonify
                max_units pitch_mode w) as Hcases.
  cbv zeta in *. destruct Hcases as (Hwav & Hcases).
  split; [exact Hwav|].
  destruct Hcases as [((e & He) & Hm)
                     |(df & selected & pm & w0 & _ & _ & _ & Hm & Hout)].
  - split; [left; exact Hm|]. intros pm Hpm. congruence.
  - split; [right; exists pm; exact Hm|]. intros pm' Hpm'.
    rewrite Hout in Hpm'.
    destruct (flat_map (fun inst => map end_ (notes inst)) (instruments pm))
      as [|x xs] eqn:Hends; [discriminate|].
    cbn in Hpm'. injection Hpm' as <-. split; [exact Hm|].
    assert (Hin : In x (flat_map (fun inst => map end_ (notes inst))
                          (instruments pm)))
      by (rewrite Hends; left; reflexivity).
    apply in_flat_map in Hin as (inst & Hinst & Hx).
    exists inst. split; [exact Hinst|].
    intros Hnil. rewrite Hnil in Hx. contradiction.
Qed.

(** X12. The document of a run that returns: tempo 120; one instrument per
    processed row, in the order of the rows, named after the row's
    identifier, with program [position mod 128]; in each instrument one note
    per spike of the row, in the order of the spikes, starting at the scaled
    spike time and ending [note_duration] later, all of one pitch and of
    velocity [base_velocity]; and with a non-negative [max_units], no more
    than [max_units] instruments. *)
Theorem create_midi_from_spikes_document (cfg : config)
    (parquet_file output_midi : string) (time_scale note_duration : float)
    (base_velocity : Z) (units_to_sonify : option (list Z)) (max_units : Z)
    (pitch_mode : string) (w : world) (pm : PrettyMIDI) :
  (create_midi_from_spikes cfg parquet_file output_midi time_scale
     note_duration base_velocity units_to_sonify max_units pitch_mode w).1
  = Ok pm ->
  exists df selected : list Row,
    read_parquet_outcome parquet_file = Ok df
    /\ match units_to_sonify with
       | Some selection => df_getitem_outcome df selection
       | None => Ok df
       end = Ok selected
    /\ initial_tempo pm = 120
    /\ Forall2
         (fun row inst =>
            exists (spikes : list float) (p : Z),
              parse_spike_times (spike_times row) = Ok spikes
              /\ name inst = ("Unit_" ++ PyStr.str_int (unit_id row))%string
              /\ notes inst
                 = map (fun t =>
                          {| velocity := base_velocity;
                             pitch := p;
                             start := (t * time_scale)%float;
                             end_ := (t * time_scale + note_duration)%float |})
                     spikes)
         (processed_units selected max_units) (instruments pm)
    /\ (forall (k : nat) (inst : Instrument),
          instruments pm !! k = Some inst ->
          program inst = Z.of_nat k `mod` 128)
    /\ (0 <= max_units -> Z.of_nat (length (instruments pm)) <= max_units).
Proof.
  intros Hret.
  pose proof (create_midi_from_spikes_cases cfg parquet_file output_midi
                time_scale note_duration base_velocity units_to_sonify
                max_units pitch_mode w) as Hcases.
  cbv zeta in Hcases. destruct Hcases as (_ & Hcases).
  destruct Hcases as [((e & He) & _)
                     |(df & selected & pm' & w0 & Hread & Hsel & Hloop & _
                       & Hout)]; [congruence|].
  rewrite Hout in Hret.
  destruct (PyNum.py_max_list _) as [total|e]; [|discriminate].
  cbn in Hret. injection Hret as ->.
  pose proof (process_units_cases cfg time_scale note_duration base_velocity
                pitch_mode (processed_units selected max_units) 0
                {| initial_tempo := 120; instruments := [] |} w0)
    as (_ & _ & Hok).
  cbv zeta in Hok.
  destruct (Hok pm Hloop) as (Htempo & insts & Hinsts & Hall & Hprog).
  cbn [initial_tempo instruments app] in Htempo, Hinsts. subst insts.
  exists df, selected. split; [exact Hread|]. split; [exact Hsel|].
  split; [exact Htempo|]. split; [exact Hall|]. split.
  - intros k inst Hk. rewrite (Hprog k inst Hk). f_equal.
  - intros Hmax. apply Forall2_length in Hall. rewrite <- Hall.
    rewrite processed_units_take by exact Hmax. rewrite length_take. lia.
Qed.

(** X14. No recovery row by row: when the text of one processed row does not
    parse, the run raises and writes no file. *)
Theorem create_midi_from_spikes_malformed_row (cfg : config)
    (parquet_file output_midi : string) (time_scale note_duration : float)
    (base_velocity : Z) (units_to_sonify : option (list Z)) (max_units : Z)
    (pitch_mode : string) (df selected : list Row) (bad : Row) (e : exn)
    (w : world) :
  read_parquet_outcome parquet_file = Ok df ->
  match units_to_sonify with
  | Some selection => df_getitem_outcome df selection
  | None => Ok df
  end = Ok selected ->
  In bad (processed_units selected max_units) ->
  parse_spike_times (spike_times bad) = Raise e ->
  let out :=
    create_midi_from_spikes cfg parquet_file output_midi time_scale
      note_duration base_velocity units_to_sonify max_units pitch_mode w in
  (exists e' : exn, out.1 = Raise e')
  /\ midi_written out.2 = midi_written w
  /\ wav_written out.2 = wav_written w.
Proof.
  intros Hread Hsel Hin Hbad.
  pose proof (create_midi_from_spikes_cases cfg parquet_file output_midi
                time_scale note_duration base_velocity units_to_sonify
                max_units pitch_mode w) as Hcases.
  cbv zeta in *. destruct Hcases as (Hwav & Hcases).
  destruct Hcases as [(He & Hm)
                     |(df' & selected' & pm & w0 & Hread' & Hsel' & Hloop
                       & _)].
  - split; [exact He|]. split; [exact Hm|exact Hwav].
  - exfalso. rewrite Hread in Hread'. injection Hread' as <-.
    rewrite Hsel in Hsel'. injection Hsel' as <-.
    destruct (process_units_malformed cfg time_scale note_duration
                base_velocity pitch_mode _ bad e Hin Hbad 0
                {| initial_tempo := 120; instruments := [] |} w0)
      as (e' & He').
    congruence.
Qed.

Lemma take_length_take {A : Type} (n : nat) (l : list A) :
  take (length (take n l)) l = take n l.
Proof.
  revert n. induction l as [|x l IH]; intros [|n]; simpl; try reflexivity.
  f_equal. apply IH.
Qed.

(** X13. The number of units of a run that returns: the [max_units] first
    selected rows for a non-negative [max_units]; for a negative one the
    slice counts from the end, and all rows but the last [- max_units] are
    processed. *)
Theorem create_midi_from_spikes_unit_count (cfg : config)
    (parquet_file output_midi : string) (time_scale note_duration : float)
    (base_velocity : Z) (units_to_sonify : option (list Z)) (max_units : Z)
    (pitch_mode : string) (df selected : list Row) (w : world)
    (pm : PrettyMIDI) :
  read_parquet_outcome parquet_file = Ok df ->
  match units_to_sonify with
  | Some selection => df_getitem_outcome df selection
  | None => Ok df
  end = Ok selected ->
  (create_midi_from_spikes cfg parquet_file output_midi time_scale
     note_duration base_velocity units_to_sonify max_units pitch_mode w).1
  = Ok pm ->
  Z.of_nat (length (instruments pm))
  = (if max_units <? 0
     then Z.max 0 (Z.of_nat (length selected) + max_units)
     else Z.min (Z.of_nat (length selected)) max_units)
  /\ map name (instruments pm)
     = map (fun row => ("Unit_" ++ PyStr.str_int (unit_id row))%string)
         (take (length (instruments pm)) selected).
Proof.
  intros Hread Hsel Hret.
  pose proof (create_midi_from_spikes_cases cfg parquet_file output_midi
                time_scale note_duration base_velocity units_to_sonify
                max_units pitch_mode w) as Hcases.
  cbv zeta in Hcases. destruct Hcases as (_ & Hcases).
  destruct Hcases as [((e & He) & _)
                     |(df' & selected' & pm' & w0 & Hread' & Hsel' & Hloop & _
                       & Hout)]; [congruence|].
  rewrite Hread in Hread'. injection Hread' as <-.
  rewrite Hsel in Hsel'. injection Hsel' as <-.
  rewrite Hout in Hret.
  destruct (PyNum.py_max_list _) as [total|e]; [|discriminate].
  cbn in Hret. injection Hret as ->.
  pose proof (process_units_cases cfg time_scale note_duration base_velocity
                pitch_mode (processed_units selected max_units) 0
                {| initial_tempo := 120; instruments := [] |} w0)
    as (_ & _ & Hok).
  cbv zeta in Hok.
  destruct (Hok pm Hloop) as (_ & insts & Hinsts & Hall & _).
  cbn [instruments app] in Hinsts. subst insts.
  assert (Hrows : processed_units selected max_units
                  = take (length (instruments pm)) selected).
  { rewrite <- (Forall2_length _ _ _ Hall).
    unfold processed_units, PyNum.slice_to.
    destruct (Z.ltb_spec max_units (Z.of_nat (length selected))) as [Hlt|Hge].
    - symmetry. apply take_length_take.
    - rewrite firstn_all. reflexivity. }
  split.
  - rewrite <- (Forall2_length _ _ _ Hall).
    unfold processed_units, PyNum.slice_to.
    destruct (Z.ltb_spec max_units (Z.of_nat (length selected))) as [Hlt|Hge].
    + rewrite length_take. destruct (Z.ltb_spec max_units 0); lia.
    + destruct (Z.ltb_spec max_units 0); lia.
  - rewrite <- Hrows. clear -Hall.
    induction Hall as [|row inst rows insts (sp & p & _ & Hname & _) _ IH];
      [reflexivity|].
    cbn [map]. rewrite Hname, IH. reflexivity.
Qed.

End ConversionMore.


(** ** Reading spike times back from text *)

Lemma list_ascii_of_string_app (a b : string) :
  list_ascii_of_string (a ++ b)
  = list_ascii_of_string a ++ list_ascii_of_string b.
Proof. induction a as [|c a IH]; simpl; [reflexivity|]. now rewrite IH. Qed.

Lemma space_is_no_bracket (c : ascii) :
  PyStr.is_space c = true -> PyStr.mem_char c "[]" = false.
Proof.
  destruct c as [[] [] [] [] [] [] [] []]; vm_compute; congruence.
Qed.

(** Stripping the brackets off a bracketed text without brackets inside
    gives the inside. *)
Lemma strip_brackets (body : string) :
  forallb (fun c => negb (PyStr.mem_char c "[]")) (list_ascii_of_string body)
  = true ->
  PyStr.strip "[]" ("[" ++ body ++ "]") = body.
Proof.
  intros Hbody. unfold PyStr.strip.
  change ("[" ++ body ++ "]")%string
    with (String "[" (body ++ "]")%string).
  cbn [list_ascii_of_string PyStr.lstrip_list].
  change (PyStr.mem_char "[" "[]") with true. cbv iota.
  rewrite list_ascii_of_string_app.
  change (list_ascii_of_string "]") with ["]"%char].
  rewrite <- (string_of_list_ascii_of_string body) at 2.
  set (L := list_ascii_of_string body) in *. clearbody L. f_equal.
  assert (Hkeep : forall l : list ascii,
             forallb (fun c => negb (PyStr.mem_char c "[]")) l = true ->
             PyStr.lstrip_list "[]" l = l).
  { intros [|c l] H; [reflexivity|]. simpl in H.
    apply andb_true_iff in H as [Hc _]. simpl.
    destruct (PyStr.mem_char c "[]"); [discriminate|reflexivity]. }
  destruct L as [|c L].
  - reflexivity.
  - assert (Hfirst : PyStr.lstrip_list "[]" ((c :: L) ++ ["]"%char])
                     = (c :: L) ++ ["]"%char]).
    { simpl in Hbody. apply andb_true_iff in Hbody as [Hc _]. simpl.
      destruct (PyStr.mem_char c "[]"); [discriminate|reflexivity]. }
    rewrite Hfirst. set (K := c :: L) in *. clearbody K.
    rewrite rev_app_distr.
    change (rev ["]"%char] ++ rev K) with ("]"%char :: rev K).
    cbn [PyStr.lstrip_list].
    change (PyStr.mem_char "]" "[]") with true. cbv iota.
    rewrite Hkeep.
    + apply rev_involutive.
    + rewrite forallb_forall in Hbody |- *. intros x Hx.
      apply Hbody. apply in_rev. exact Hx.
Qed.

Lemma string_app_assoc (a b c : string) :
  ((a ++ b) ++ c = a ++ (b ++ c))%string.
Proof.
  induction a as [|x a IH]; [reflexivity|].
  change (String x ((a ++ b) ++ c) = String x (a ++ (b ++ c)))%string.
  f_equal. exact IH.
Qed.

Lemma string_app_empty_r (a : string) : (a ++ "")%string = a.
Proof.
  induction a as [|x a IH]; [reflexivity|].
  change (String x (a ++ "") = String x a)%string.
  f_equal. exact IH.
Qed.

(** White space closes the token being read, if any. *)
Lemma split_go_spaces (s rest : string) (cur : option string) :
  all_space s = true ->
  PyStr.split_go cur (s ++ rest)
  = match s, cur with
    | String _ _, Some t => t :: PyStr.split_go None rest
    | String _ _, None => PyStr.split_go None rest
    | EmptyString, _ => PyStr.split_go cur rest
    end.
Proof.
  unfold all_space. revert cur.
  induction s as [|c s IH]; intros cur Hs; [reflexivity|].
  simpl in Hs. apply andb_true_iff in Hs as [Hc Hs].
  change (String c s ++ rest)%string with (String c (s ++ rest)%string).
  cbn [PyStr.split_go]. rewrite Hc.
  rewrite (IH None Hs). destruct s, cur; reflexivity.
Qed.

(** Characters that are no white space extend the token being read. *)
Lemma split_go_chars (t rest : string) (cur : option string) :
  t <> ""%string ->
  forallb (fun c => negb (PyStr.is_space c)) (list_ascii_of_string t) = true ->
  PyStr.split_go cur (t ++ rest)
  = PyStr.split_go (Some (default "" cur ++ t)%string) rest.
Proof.
  revert cur. induction t as [|c t IH]; intros cur Hne Ht; [congruence|].
  simpl in Ht. apply andb_true_iff in Ht as [Hc Ht].
  apply negb_true_iff in Hc.
  change (String c t ++ rest)%string with (String c (t ++ rest)%string).
  cbn [PyStr.split_go]. rewrite Hc.
  destruct t as [|d t].
  - destruct cur; reflexivity.
  - rewrite IH by (congruence || exact Ht). f_equal. f_equal.
    destruct cur as [u|]; cbv beta iota delta [default from_option id].
    + rewrite string_app_assoc. reflexivity.
    + reflexivity.
Qed.

Lemma clean_token_chars (t : string) :
  clean_token t = true ->
  t <> ""%string
  /\ forallb (fun c => negb (PyStr.is_space c)) (list_ascii_of_string t) = true
  /\ forallb (fun c => negb (PyStr.mem_char c "[]")) (list_ascii_of_string t)
     = true.
Proof.
  unfold clean_token. intros H. apply andb_true_iff in H as [Hne Hall].
  split; [|split].
  - intros ->. discriminate.
  - rewrite forallb_forall in Hall |- *. intros c Hc.
    specialize (Hall c Hc). apply andb_true_iff in Hall as [Hall _].
    now apply andb_true_iff in Hall as [_ ?].
  - rewrite forallb_forall in Hall |- *. intros c Hc.
    specialize (Hall c Hc). now apply andb_true_iff in Hall as [_ ?].
Qed.

Lemma all_space_no_bracket (s : string) :
  all_space s = true ->
  forallb (fun c => negb (PyStr.mem_char c "[]")) (list_ascii_of_string s)
  = true.
Proof.
  unfold all_space. rewrite !forallb_forall. intros H c Hc.
  now rewrite (space_is_no_bracket c (H c Hc)).
Qed.

Lemma split_go_more (tok trail : string) (more : list (string * string)) :
  well_spaced more = true ->
  all_space trail = true ->
  PyStr.split_go (Some tok)
    (fold_right (fun st acc => st.1 ++ st.2 ++ acc) "" more ++ trail)%string
  = tok :: map snd more.
Proof.
  intros Hmore Htrail. revert tok.
  induction more as [|[sep t] more IH]; intros tok.
  - cbn [fold_right map].
    rewrite (split_go_spaces trail "" (Some tok) Htrail) || idtac.
    change ("" ++ trail)%string with trail.
    rewrite <- (string_app_empty_r trail).
    rewrite (split_go_spaces trail "" (Some tok) Htrail).
    destruct trail; reflexivity.
  - cbn [well_spaced forallb] in Hmore.
    apply andb_true_iff in Hmore as [Hst Hmore].
    apply andb_true_iff in Hst as [Hst Ht].
    apply andb_true_iff in Hst as [Hne Hsep].
    cbn [fst snd] in *.
    cbn [fold_right map fst snd].
    rewrite !string_app_assoc.
    rewrite (split_go_spaces sep _ (Some tok) Hsep).
    destruct sep as [|c sep]; [discriminate|].
    destruct (clean_token_chars t Ht) as (Htne & Hts & _).
    rewrite (split_go_chars t _ None Htne Hts).
    cbv beta iota delta [default from_option id]. change ("" ++ t)%string with t.
    rewrite (IH Hmore). reflexivity.
Qed.

Lemma no_bracket_more (more : list (string * string)) :
  well_spaced more = true ->
  forallb (fun c => negb (PyStr.mem_char c "[]"))
    (list_ascii_of_string
       (fold_right (fun st acc => st.1 ++ st.2 ++ acc) "" more)%string)
  = true.
Proof.
  induction more as [|[sep t] more IH]; intros Hmore; [reflexivity|].
  cbn [well_spaced forallb] in Hmore.
  apply andb_true_iff in Hmore as [Hst Hmore].
  apply andb_true_iff in Hst as [Hst Ht].
  apply andb_true_iff in Hst as [Hne Hsep].
  cbn [fst snd] in *. cbn [fold_right fst snd].
  rewrite !list_ascii_of_string_app, !forallb_app.
  rewrite (all_space_no_bracket sep Hsep).
  destruct (clean_token_chars t Ht) as (_ & _ & ->).
  rewrite (IH Hmore). reflexivity.
Qed.

Section Parsing.
Context {E : Externals}.

Lemma parse_fold_convert_all (values : list string) :
  fold_right
    (fun v acc =>
       result_bind (float_outcome v) (fun x =>
       result_bind acc (fun xs => Ok (x :: xs))))
    (Ok []) values
  = convert_all values.
Proof.
  induction values as [|v values IH]; [reflexivity|].
  cbn [fold_right convert_all]. rewrite IH.
  destruct (float_outcome v); [|reflexivity].
  cbn. destruct (convert_all values); reflexivity.
Qed.

(** The text of a bracketed row of tokens is read token by token. *)
Lemma parse_spike_times_tokens (lead trail first : string)
    (more : list (string * string)) :
  all_space lead = true ->
  all_space trail = true ->
  clean_token first = true ->
  well_spaced more = true ->
  parse_spike_times
    ("[" ++ (lead ++ spaced_tokens first more ++ trail) ++ "]")
  = convert_all (first :: map snd more).
Proof.
  intros Hlead Htrail Hfirst Hmore.
  unfold parse_spike_times. cbv zeta.
  rewrite strip_brackets.
  - rewrite parse_fold_convert_all. f_equal.
    unfold PyStr.split.
    rewrite (split_go_spaces lead _ None Hlead).
    assert (Hgo : PyStr.split_go None (spaced_tokens first more ++ trail)
                  = first :: map snd more).
    { unfold spaced_tokens. rewrite string_app_assoc.
      destruct (clean_token_chars first Hfirst) as (Hne & Hs & _).
      rewrite (split_go_chars first _ None Hne Hs).
      cbv beta iota delta [default from_option id]. change ("" ++ first)%string with first.
      apply split_go_more; assumption. }
    destruct lead; exact Hgo.
  - unfold spaced_tokens.
    rewrite !list_ascii_of_string_app, !forallb_app.
    rewrite (all_space_no_bracket lead Hlead).
    rewrite (all_space_no_bracket trail Htrail).
    destruct (clean_token_chars first Hfirst) as (_ & _ & ->).
    rewrite (no_bracket_more more Hmore). reflexivity.
Qed.

(** X1. When [float] reads every token, the text gives the numbers back, one
    for each token and in the order of the text. *)
Theorem parse_spike_times_reads_back (lead trail first : string)
    (more : list (string * string)) (times : list float) :
  all_space lead = true ->
  all_space trail = true ->
  clean_token first = true ->
  well_spaced more = true ->
  Forall2 (fun t x => float_outcome t = Ok x) (first :: map snd more) times ->
  parse_spike_times
    ("[" ++ (lead ++ spaced_tokens first more ++ trail) ++ "]")
  = Ok times.
Proof.
  intros Hlead Htrail Hfirst Hmore Hall.
  rewrite parse_spike_times_tokens by assumption.
  induction Hall as [|t x ts xs Ht _ IH]; [reflexivity|].
  cbn [convert_all]. rewrite Ht, IH. reflexivity.
Qed.

(** X2. The first token that [float] refuses ends the reading with the
    exception of that token. *)
Theorem parse_spike_times_bad_token (lead trail first : string)
    (more : list (string * string)) (good : list string) (bad : string)
    (rest : list string) (e : exn) :
  all_space lead = true ->
  all_space trail = true ->
  clean_token first = true ->
  well_spaced more = true ->
  first :: map snd more = good ++ bad :: rest ->
  Forall (fun t => exists x, float_outcome t = Ok x) good ->
  float_outcome bad = Raise e ->
  parse_spike_times
    ("[" ++ (lead ++ spaced_tokens first more ++ trail) ++ "]")
  = Raise e.
Proof.
  intros Hlead Htrail Hfirst Hmore Hsplit Hgood Hbad.
  rewrite parse_spike_times_tokens by assumption.
  rewrite Hsplit. clear Hsplit.
  induction Hgood as [|t ts [x Ht] _ IH].
  - cbn [app convert_all]. rewrite Hbad. reflexivity.
  - cbn [app convert_all] in *. rewrite Ht, IH. reflexivity.
Qed.

(** X3. A text of brackets and white space only holds no spike. *)
Theorem parse_spike_times_blank (lead : string) :
  all_space lead = true ->
  parse_spike_times ("[" ++ lead ++ "]") = Ok [].
Proof.
  intros Hlead. unfold parse_spike_times. cbv zeta.
  rewrite strip_brackets by (apply all_space_no_bracket; exact Hlead).
  unfold PyStr.split.
  rewrite <- (string_app_empty_r lead).
  rewrite (split_go_spaces lead "" None Hlead).
  destruct lead; reflexivity.
Qed.

End Parsing.

(** ** The renderers, whatever the libraries answer *)

Section RenderingMore.

Context {G : BitGenerator} {E : Externals}.

(** The tail of the renderers touches no MIDI file, and ends well exactly
    when the duration can be computed. *)
Lemma save_and_report_outcome (output_wav : string) (sample_rate : Z)
    (data : list Z) (w : world) :
  (save_and_report output_wav sample_rate data w).1
  = result_bind (PyNum.int_true_div (Z.of_nat (length data)) sample_rate)
      (fun _ => Ok tt)
  /\ midi_written (save_and_report output_wav sample_rate data w).2
     = midi_written w.
Proof.
  unfold save_and_report. run_print.
  assert (Hwr : exists w1 : world,
             wavfile_write output_wav sample_rate data w0 = (Ok tt, w1)
             /\ midi_written w1 = midi_written w0)
    by (eexists; split; reflexivity).
  destruct Hwr as (w1 & Hwr & Hw1). run_with Hwr.
  destruct (PyNum.int_true_div (Z.of_nat (length data)) sample_rate)
    as [duration|e] eqn:Hdiv.
  - assert (Hd : lift (Ok duration) w1 = (Ok duration, w1)) by reflexivity.
    run_with Hd. run_print. run_print. run_print. run_print.
    destruct (print_run (nl ++ "You can now play this in any audio player!")
                w5) as (w6 & -> & Hm6 & _).
    cbn [fst snd result_bind]. split; [reflexivity|congruence].
  - rewrite (M_bind_raise (lift (Raise e)) _ w1 e w1 eq_refl).
    cbn [fst snd result_bind]. split; [reflexivity|congruence].
Qed.

(** The synthesis chain touches no file (see
    [synthesize_with_fallback_frame]); the single call of [midi_to_wav]
    does not either. *)
Lemma pm_fluidsynth_run (pm : PrettyMIDI) (fs : Z)
    (synthesizer : option string) (w : world) :
  exists w' : world,
    pm_fluidsynth pm fs synthesizer w
    = (fluidsynth_outcome pm fs synthesizer, w')
    /\ midi_written w' = midi_written w
    /\ wav_written w' = wav_written w.
Proof. eexists. repeat split; reflexivity. Qed.

(** What [midi_to_wav] does, case by case of the libraries' answers. *)
Lemma midi_to_wav_cases (midi_file output_wav : string) (sample_rate : Z)
    (w : world) :
  let out := midi_to_wav midi_file output_wav sample_rate w in
  midi_written out.2 = midi_written w
  /\ match load_midi_outcome midi_file with
     | Raise e => out.1 = Raise e /\ wav_written out.2 = wav_written w
     | Ok pm =>
         match fluidsynth_outcome pm sample_rate None with
         | Raise e => out.1 = Raise e /\ wav_written out.2 = wav_written w
         | Ok audio =>
             match normalize audio with
             | Raise e =>
                 out.1 = Raise e /\ wav_written out.2 = wav_written w
             | Ok normalized =>
                 out.1
                 = result_bind
                     (PyNum.int_true_div
                        (Z.of_nat (length (to_pcm16 normalized)))
                        sample_rate)
                     (fun _ => Ok tt)
                 /\ wav_written out.2
                    = wav_written w
                        ++ [(output_wav,
                             (sample_rate, to_pcm16 normalized))]
             end
         end
     end.
Proof.
  cbv zeta. unfold midi_to_wav. run_print.
  destruct (load_midi_outcome midi_file) as [pm|e] eqn:Hload.
  2:{ assert (Hld : PrettyMIDI_load midi_file w0 = (Raise e, w0))
        by (unfold PrettyMIDI_load, lift; rewrite Hload; reflexivity).
      rewrite (M_bind_raise _ _ w0 e w0 Hld). cbn [fst snd].
      repeat split; congruence. }
  assert (Hld : PrettyMIDI_load midi_file w0 = (Ok pm, w0))
    by (unfold PrettyMIDI_load, lift; rewrite Hload; reflexivity).
  run_with Hld. run_print.
  destruct (pm_fluidsynth_run pm sample_rate None w1)
    as (w2 & Hfs & Hm2 & Hw2).
  destruct (fluidsynth_outcome pm sample_rate None) as [audio|e] eqn:Hsynth.
  2:{ rewrite (M_bind_raise _ _ w1 e w2 Hfs). cbn [fst snd].
      repeat split; congruence. }
  run_with Hfs.
  destruct (normalize audio) as [normalized|e] eqn:Hnorm.
  2:{ rewrite (M_bind_raise (lift (Raise e)) _ w2 e w2 eq_refl).
      cbn [fst snd]. repeat split; congruence. }
  rewrite (M_bind_ok (lift (Ok normalized)) _ w2 normalized w2 eq_refl).
  destruct (save_and_report_outcome output_wav sample_rate
              (to_pcm16 normalized) w2) as [Hres Hmid].
  rewrite save_and_report_writes. rewrite Hres, Hmid.
  repeat split; congruence.
Qed.

(** What [midi_to_wav_suyee] does, case by case. *)
Lemma midi_to_wav_suyee_cases (midi_file output_wav : string)
    (sample_rate : Z) (w : world) :
  let out := midi_to_wav_suyee midi_file output_wav sample_rate w in
  midi_written out.2 = midi_written w
  /\ match load_midi_outcome midi_file with
     | Raise e => out.1 = Raise e /\ wav_written out.2 = wav_written w
     | Ok pm =>
         match
           Spec.first_success
             (fluidsynth_outcome pm sample_rate (Some "./CindyBells.sf2"))
             [fluidsynth_outcome pm sample_rate None;
              synthesize_outcome pm sample_rate]
         with
         | Raise e => out.1 = Raise e /\ wav_written out.2 = wav_written w
         | Ok [] => out.1 = Ok tt /\ wav_written out.2 = wav_written w
         | Ok audio =>
             match normalize audio with
             | Raise e =>
                 out.1 = Raise e /\ wav_written out.2 = wav_written w
             | Ok normalized =>
                 out.1
                 = result_bind
                     (PyNum.int_true_div
                        (Z.of_nat (length (to_pcm16 normalized)))
                        sample_rate)
                     (fun _ => Ok tt)
                 /\ wav_written out.2
                    = wav_written w
                        ++ [(output_wav,
                             (sample_rate, to_pcm16 normalized))]
             end
         end
     end.
Proof.
  cbv zeta. unfold midi_to_wav_suyee. run_print.
  destruct (load_midi_outcome midi_file) as [pm|e] eqn:Hload.
  2:{ assert (Hld : PrettyMIDI_load midi_file w0 = (Raise e, w0))
        by (unfold PrettyMIDI_load, lift; rewrite Hload; reflexivity).
      rewrite (M_bind_raise _ _ w0 e w0 Hld). cbn [fst snd].
      repeat split; congruence. }
  assert (Hld : PrettyMIDI_load midi_file w0 = (Ok pm, w0))
    by (unfold PrettyMIDI_load, lift; rewrite Hload; reflexivity).
  run_with Hld. run_print.
  pose proof (synthesize_with_fallback_outcome pm sample_rate w1) as Hout.
  destruct (synthesize_with_fallback_frame pm sample_rate w1) as [Hw2 Hm2].
  destruct (synthesize_with_fallback pm sample_rate w1) as [r w2] eqn:Hchain.
  cbn [fst snd] in Hout, Hw2, Hm2. rewrite <- Hout.
  destruct r as [audio|e].
  2:{ rewrite (M_bind_raise _ _ w1 e w2 Hchain). cbn [fst snd].
      repeat split; congruence. }
  run_with Hchain.
  destruct audio as [|x rest].
  - change (0 <? Z.of_nat (length (@nil float))) with false. cbv iota.
    destruct (print_run "Warning: No audio data generated!" w2)
      as (w3 & -> & Hm3 & Hw3).
    cbn [fst snd]. repeat split; congruence.
  - replace (0 <? Z.of_nat (length (x :: rest))) with true
      by (symmetry; apply Z.ltb_lt; simpl; lia).
    cbv iota.
    destruct (normalize (x :: rest)) as [normalized|e] eqn:Hnorm.
    2:{ rewrite (M_bind_raise (lift (Raise e)) _ w2 e w2 eq_refl).
        cbn [fst snd]. repeat split; congruence. }
    rewrite (M_bind_ok (lift (Ok normalized)) _ w2 normalized w2 eq_refl).
    destruct (save_and_report_outcome output_wav sample_rate
                (to_pcm16 normalized) w2) as [Hres Hmid].
    rewrite save_and_report_writes. rewrite Hres, Hmid.
    repeat split; congruence.
Qed.

(** X20. A renderer never touches a MIDI file and writes at most one WAV
    file: the one it was asked for, at the sample rate it was given. *)
Theorem renderers_write_only_the_output_file (midi_file output_wav : string)
    (sample_rate : Z) (w : world) :
  writes_at_most output_wav sample_rate w
    (midi_to_wav midi_file output_wav sample_rate w).2
  /\ writes_at_most output_wav sample_rate w
       (midi_to_wav_suyee midi_file output_wav sample_rate w).2.
Proof.
  unfold writes_at_most. split.
  - pose proof (midi_to_wav_cases midi_file output_wav sample_rate w)
      as [Hm Hcase]. cbv zeta in Hm, Hcase.
    split; [exact Hm|].
    destruct (load_midi_outcome midi_file) as [pm|e];
      [|left; apply Hcase].
    destruct (fluidsynth_outcome pm sample_rate None) as [audio|e];
      [|left; apply Hcase].
    destruct (normalize audio) as [normalized|e]; [|left; apply Hcase].
    right. eexists. apply Hcase.
  - pose proof (midi_to_wav_suyee_cases midi_file output_wav sample_rate w)
      as [Hm Hcase]. cbv zeta in Hm, Hcase.
    split; [exact Hm|].
    destruct (load_midi_outcome midi_file) as [pm|e];
      [|left; apply Hcase].
    destruct (Spec.first_success _ _) as [[|x rest]|e];
      [left; apply Hcase| |left; apply Hcase].
    destruct (normalize (x :: rest)) as [normalized|e];
      [|left; apply Hcase].
    right. eexists. apply Hcase.
Qed.

(** X21. [midi_to_wav] returns normally only after it has written the file:
    the MIDI file was read, FluidSynth answered samples, and the file holds
    them divided by their peak and cast; the sample rate is not zero. *)
Theorem midi_to_wav_success (midi_file output_wav : string)
    (sample_rate : Z) (w : world) :
  (midi_to_wav midi_file output_wav sample_rate w).1 = Ok tt ->
  exists (pm : PrettyMIDI) (audio : list float) (peak : float),
    load_midi_outcome midi_file = Ok pm
    /\ fluidsynth_outcome pm sample_rate None = Ok audio
    /\ audio <> []
    /\ PyNum.np_max (map PrimFloat.abs audio) = Ok peak
    /\ sample_rate <> 0
    /\ wav_written (midi_to_wav midi_file output_wav sample_rate w).2
       = wav_written w
           ++ [(output_wav,
                (sample_rate,
                 map (fun s => astype_int16 (s / peak * 32767)%float)
                   audio))].
Proof.
  intros Hok.
  pose proof (midi_to_wav_cases midi_file output_wav sample_rate w)
    as [_ Hcase]. cbv zeta in Hcase.
  destruct (load_midi_outcome midi_file) as [pm|e] eqn:Hload;
    [|destruct Hcase; congruence].
  destruct (fluidsynth_outcome pm sample_rate None) as [audio|e] eqn:Hsynth;
    [|destruct Hcase; congruence].
  unfold normalize in Hcase.
  destruct (PyNum.np_max (map abs audio)) as [peak|e] eqn:Hpeak;
    cbn [result_bind] in Hcase; [|destruct Hcase; congruence].
  destruct Hcase as [Hres Hwav].
  exists pm, audio, peak. split; [reflexivity|]. split; [exact Hsynth|].
  split; [intros ->; discriminate|]. split; [exact Hpeak|].
  split.
  - intros ->. rewrite Hok in Hres. unfold PyNum.int_true_div in Hres.
    discriminate.
  - rewrite Hwav. unfold to_pcm16. rewrite map_map. reflexivity.
Qed.

(** X22. Without FluidSynth [midi_to_wav] fails with the exception of the
    call and writes nothing: it has no fallback. *)
Theorem midi_to_wav_without_fluidsynth (midi_file output_wav : string)
    (sample_rate : Z) (pm : PrettyMIDI) (e : exn) (w : world) :
  load_midi_outcome midi_file = Ok pm ->
  fluidsynth_outcome pm sample_rate None = Raise e ->
  (midi_to_wav midi_file output_wav sample_rate w).1 = Raise e
  /\ wav_written (midi_to_wav midi_file output_wav sample_rate w).2
     = wav_written w
  /\ builtin_calls
       (synth_calls (midi_to_wav midi_file output_wav sample_rate w).2)
     = builtin_calls (synth_calls w).
Proof.
  intros Hload Hsynth.
  pose proof (midi_to_wav_cases midi_file output_wav sample_rate w)
    as [_ Hcase]. cbv zeta in Hcase. rewrite Hload, Hsynth in Hcase.
  destruct Hcase as [Hres Hwav]. split; [exact Hres|]. split; [exact Hwav|].
  unfold midi_to_wav, PrettyMIDI_load, pm_fluidsynth, lift, mbind, M_bind,
    print, log_call.
  rewrite Hload. cbn [stdout midi_written wav_written np_random synth_calls].
  rewrite Hsynth. cbn [snd synth_calls].
  rewrite builtin_calls_app. simpl. lia.
Qed.

(** X23. When the three strategies fail, [midi_to_wav_suyee] fails with the
    exception of the built-in synthesizer, the last one tried, and writes
    nothing. *)
Theorem midi_to_wav_suyee_all_fail (midi_file output_wav : string)
    (sample_rate : Z) (pm : PrettyMIDI) (e1 e2 e3 : exn) (w : world) :
  load_midi_outcome midi_file = Ok pm ->
  fluidsynth_outcome pm sample_rate (Some "./CindyBells.sf2") = Raise e1 ->
  fluidsynth_outcome pm sample_rate None = Raise e2 ->
  synthesize_outcome pm sample_rate = Raise e3 ->
  (midi_to_wav_suyee midi_file output_wav sample_rate w).1 = Raise e3
  /\ wav_written (midi_to_wav_suyee midi_file output_wav sample_rate w).2
     = wav_written w.
Proof.
  intros Hload H1 H2 H3.
  pose proof (midi_to_wav_suyee_cases midi_file output_wav sample_rate w)
    as [_ Hcase]. cbv zeta in Hcase.
  rewrite Hload, H1, H2, H3 in Hcase. exact Hcase.
Qed.

(** X24. A MIDI file that cannot be read stops both renderers with the
    exception of the reader, before any synthesizer is called. *)
Theorem renderers_unreadable_midi (midi_file output_wav : string)
    (sample_rate : Z) (e : exn) (w : world) :
  load_midi_outcome midi_file = Raise e ->
  let out := midi_to_wav midi_file output_wav sample_rate w in
  let out' := midi_to_wav_suyee midi_file output_wav sample_rate w in
  out.1 = Raise e /\ out'.1 = Raise e
  /\ synth_calls out.2 = synth_calls w /\ synth_calls out'.2 = synth_calls w
  /\ wav_written out.2 = wav_written w /\ wav_written out'.2 = wav_written w.
Proof.
  intros Hload. cbv zeta.
  unfold midi_to_wav, midi_to_wav_suyee, PrettyMIDI_load, lift, mbind,
    M_bind, print.
  rewrite Hload. cbn. repeat split; reflexivity.
Qed.

End RenderingMore.

(** ** The further properties at work on the sample collaborators *)

Lemma parse_spike_times_reads_back_witness :
  parse_spike_times (E := Sample.silent) "[ 1.5  2.5 ]"
  = Ok [1.5; 2.5]%float.
Proof.
  apply (parse_spike_times_reads_back (E := Sample.silent) " " " " "1.5"
           [("  ", "2.5")] [1.5; 2.5]%float).
  - reflexivity.
  - reflexivity.
  - reflexivity.
  - reflexivity.
  - constructor; [vm_compute; reflexivity|].
    constructor; [vm_compute; reflexivity|]. constructor.
Defined.

Lemma parse_spike_times_bad_token_witness :
  parse_spike_times (E := Sample.silent) "[1.5, 2.5]"
  = Raise (Exn ValueError "could not convert string to float").
Proof.
  apply (parse_spike_times_bad_token (E := Sample.silent) "" "" "1.5,"
           [(" ", "2.5")] [] "1.5," ["2.5"]
           (Exn ValueError "could not convert string to float")).
  - reflexivity.
  - reflexivity.
  - reflexivity.
  - reflexivity.
  - reflexivity.
  - constructor.
  - vm_compute. reflexivity.
Defined.

Lemma parse_spike_times_blank_witness :
  parse_spike_times (E := Sample.silent) "[  ]" = Ok [].
Proof.
  apply (parse_spike_times_blank (E := Sample.silent) "  "). reflexivity.
Defined.

Lemma spread_pitch_ends_witness :
  get_pitch_for_unit (G := Sample.lcg) source_config 0 7 [] "spread"
    Sample.world0
  = (Ok 48, Sample.world0)
  /\ get_pitch_for_unit (G := Sample.lcg) source_config 15 7 [] "spread"
       Sample.world0
     = (Ok 84, Sample.world0).
Proof.
  assert (Hlo : 0 <= (PITCH_RANGE source_config).1 <= 127) by (simpl; lia).
  assert (Hhi : 0 <= (PITCH_RANGE source_config).2 <= 127) by (simpl; lia).
  assert (Hunits : 2 <= MAX_UNITS source_config) by (simpl; lia).
  split.
  - exact (proj1 (spread_pitch_ends (G := Sample.lcg) source_config 7 []
                    Sample.world0 Hlo Hhi)).
  - exact (proj2 (spread_pitch_ends (G := Sample.lcg) source_config 7 []
                    Sample.world0 Hlo Hhi) Hunits).
Defined.

Lemma firing_rate_without_duration_witness :
  get_pitch_for_unit (G := Sample.lcg) source_config 3 7 [1.5%float]
    "firing_rate" Sample.world0
  = (Ok 48, Sample.world0).
Proof.
  apply (firing_rate_without_duration (G := Sample.lcg) source_config 3 7
           1.5%float [] Sample.world0).
  - simpl. lia.
  - simpl. lia.
  - reflexivity.
Defined.

Lemma firing_rate_saturates_witness :
  get_pitch_for_unit (G := Sample.lcg) source_config 3 7
    [0; 0.0078125; 0.015625]%float "firing_rate" Sample.world0
  = (Ok 84, Sample.world0).
Proof.
  apply (firing_rate_saturates (G := Sample.lcg) source_config 3 7
           0%float [0.0078125; 0.015625]%float (3 / (0.015625 - 0))%float Sample.world0).
  - simpl. lia.
  - simpl. lia.
  - vm_compute. reflexivity.
  - vm_compute. reflexivity.
Defined.

Lemma pitch_policy_without_effect_witness :
  (get_pitch_for_unit (G := Sample.lcg) source_config 3 7 [1.5%float]
     "spread" Sample.world0).2
  = Sample.world0.
Proof.
  apply (pitch_policy_without_effect (G := Sample.lcg) source_config 3 7
           [1.5%float] "spread" Sample.world0).
  discriminate.
Defined.

Lemma random_pitch_reseeds_generator_witness :
  let w' :=
    (get_pitch_for_unit (G := Sample.lcg) source_config 3 7 [] "random"
       Sample.world0).2 in
  np_random w'
  = (rng_bounded (BitGenerator := Sample.lcg) (rng_seed 7)
       ((PITCH_RANGE source_config).2 + 1 - 1 - (PITCH_RANGE source_config).1)).2
  /\ stdout w' = stdout Sample.world0
  /\ midi_written w' = midi_written Sample.world0
  /\ wav_written w' = wav_written Sample.world0
  /\ synth_calls w' = synth_calls Sample.world0.
Proof.
  cbv zeta.
  apply (random_pitch_reseeds_generator (G := Sample.lcg) source_config 3 7
           52 [] Sample.world0).
  vm_compute. reflexivity.
Defined.

Lemma create_midi_from_spikes_document_witness :
  exists (pm : PrettyMIDI) (df selected : list Row),
    (create_midi_from_spikes (G := Sample.lcg) (E := Sample.silent)
       source_config "three.parquet" "out.mid" TIME_SCALE NOTE_DURATION
       BASE_VELOCITY None 2 "octaves" Sample.world0).1 = Ok pm
    /\ read_parquet_outcome (Externals := Sample.silent) "three.parquet"
       = Ok df
    /\ Ok df = Ok selected
    /\ initial_tempo pm = 120
    /\ Forall2
         (fun row inst =>
            exists (spikes : list float) (p : Z),
              parse_spike_times (E := Sample.silent) (spike_times row)
              = Ok spikes
              /\ name inst = ("Unit_" ++ PyStr.str_int (unit_id row))%string
              /\ notes inst
                 = map (fun t =>
                          {| velocity := BASE_VELOCITY;
                             pitch := p;
                             start := (t * TIME_SCALE)%float;
                             end_ := (t * TIME_SCALE + NOTE_DURATION)%float |})
                     spikes)
         (processed_units selected 2) (instruments pm)
    /\ (forall (k : nat) (inst : Instrument),
          instruments pm !! k = Some inst ->
          program inst = Z.of_nat k `mod` 128)
    /\ (0 <= 2 -> Z.of_nat (length (instruments pm)) <= 2).
Proof.
  assert (Hrun : exists pm : PrettyMIDI,
             (create_midi_from_spikes (G := Sample.lcg) (E := Sample.silent)
                source_config "three.parquet" "out.mid" TIME_SCALE
                NOTE_DURATION BASE_VELOCITY None 2 "octaves"
                Sample.world0).1 = Ok pm)
    by (vm_compute; eexists; reflexivity).
  destruct Hrun as [pm Hrun]. exists pm.
  destruct (create_midi_from_spikes_document (G := Sample.lcg)
              (E := Sample.silent) source_config "three.parquet" "out.mid"
              TIME_SCALE NOTE_DURATION BASE_VELOCITY None 2 "octaves"
              Sample.world0 pm Hrun) as (df & selected & H).
  exists df, selected. split; [exact Hrun|exact H].
Defined.

Lemma create_midi_from_spikes_unit_count_witness :
  exists pm : PrettyMIDI,
    (create_midi_from_spikes (G := Sample.lcg) (E := Sample.silent)
       source_config "three.parquet" "out.mid" TIME_SCALE NOTE_DURATION
       BASE_VELOCITY None (-1) "octaves" Sample.world0).1 = Ok pm
    /\ Z.of_nat (length (instruments pm))
       = (if -1 <? 0
          then Z.max 0 (Z.of_nat (length (Sample.table 3 "[1.5]")) + -1)
          else Z.min (Z.of_nat (length (Sample.table 3 "[1.5]"))) (-1))
    /\ map name (instruments pm)
       = map (fun row => ("Unit_" ++ PyStr.str_int (unit_id row))%string)
           (take (length (instruments pm)) (Sample.table 3 "[1.5]")).
Proof.
  assert (Hrun : exists pm : PrettyMIDI,
             (create_midi_from_spikes (G := Sample.lcg) (E := Sample.silent)
                source_config "three.parquet" "out.mid" TIME_SCALE
                NOTE_DURATION BASE_VELOCITY None (-1) "octaves"
                Sample.world0).1 = Ok pm)
    by (vm_compute; eexists; reflexivity).
  destruct Hrun as [pm Hrun]. exists pm. split; [exact Hrun|].
  apply (create_midi_from_spikes_unit_count (G := Sample.lcg)
           (E := Sample.silent) source_config "three.parquet" "out.mid"
           TIME_SCALE NOTE_DURATION BASE_VELOCITY None (-1) "octaves"
           (Sample.table 3 "[1.5]") (Sample.table 3 "[1.5]") Sample.world0
           pm).
  - reflexivity.
  - reflexivity.
  - exact Hrun.
Defined.

Lemma create_midi_from_spikes_malformed_row_witness :
  let out :=
    create_midi_from_spikes (G := Sample.lcg) (E := Sample.comma_separated)
      source_config "spikes.parquet" "out.mid" TIME_SCALE NOTE_DURATION
      BASE_VELOCITY None 16 "custom" Sample.world0 in
  (exists e' : exn, out.1 = Raise e')
  /\ midi_written out.2 = midi_written Sample.world0
  /\ wav_written out.2 = wav_written Sample.world0.
Proof.
  apply (create_midi_from_spikes_malformed_row (G := Sample.lcg)
           (E := Sample.comma_separated) source_config "spikes.parquet"
           "out.mid" TIME_SCALE NOTE_DURATION BASE_VELOCITY None 16 "custom"
           (Sample.table 2 "[1.5, 2.5]") (Sample.table 2 "[1.5, 2.5]")
           {| unit_id := 0; spike_times := "[1.5, 2.5]" |}
           (Exn ValueError "could not convert string to float")
           Sample.world0).
  - reflexivity.
  - reflexivity.
  - left. reflexivity.
  - vm_compute. reflexivity.
Defined.

Lemma normalize_reaches_full_scale_witness :
  exists normalized : list float,
    normalize [0.5; -0.25; 0.125]%float = Ok normalized
    /\ length normalized = length [0.5; -0.25; 0.125]%float
    /\ (In 1%float normalized \/ In (-1)%float normalized).
Proof.
  apply (normalize_reaches_full_scale [0.5; -0.25; 0.125]%float 0.5%float).
  - vm_compute. reflexivity.
  - exists false, 4503599627370496%positive, (-53). vm_compute. reflexivity.
Defined.

Lemma normalize_silence_is_nan_witness :
  exists normalized : list float,
    normalize [0; -0]%float = Ok normalized
    /\ length normalized = length [0; -0]%float
    /\ Forall (fun y => PyNum.is_nan y = true) normalized.
Proof.
  apply (normalize_silence_is_nan [0; -0]%float).
  - discriminate.
  - constructor; [vm_compute; reflexivity|].
    constructor; [vm_compute; reflexivity|]. constructor.
Defined.



Lemma midi_to_wav_suyee_empty_audio_warns_witness :
  exists w' : world,
    midi_to_wav_suyee (G := Sample.lcg) (E := Sample.silent) "in.mid"
      "out.wav" 44100 Sample.world0
    = (Ok tt, w')
    /\ wav_written w' = wav_written Sample.world0
    /\ last (stdout w') = Some "Warning: No audio data generated!".
Proof.
  apply (midi_to_wav_suyee_empty_audio_warns (G := Sample.lcg)
           (E := Sample.silent) "in.mid" "out.wav" 44100
           {| initial_tempo := 120; instruments := [] |} Sample.world0);
    reflexivity.
Defined.

Lemma midi_to_wav_success_witness :
  exists (pm : PrettyMIDI) (audio : list float) (peak : float),
    load_midi_outcome (Externals := Sample.sounding) "in.mid" = Ok pm
    /\ fluidsynth_outcome (Externals := Sample.sounding) pm 44100 None
       = Ok audio
    /\ audio <> []
    /\ PyNum.np_max (map PrimFloat.abs audio) = Ok peak
    /\ 44100 <> 0
    /\ wav_written
         (midi_to_wav (G := Sample.lcg) (E := Sample.sounding) "in.mid"
            "out.wav" 44100 Sample.world0).2
       = wav_written Sample.world0
           ++ [("out.wav",
                (44100,
                 map (fun s =>
                        astype_int16 (Externals := Sample.sounding)
                          (s / peak * 32767)%float)
                   audio))].
Proof.
  apply (midi_to_wav_success (G := Sample.lcg) (E := Sample.sounding)
           "in.mid" "out.wav" 44100 Sample.world0).
  vm_compute. reflexivity.
Defined.

Lemma midi_to_wav_without_fluidsynth_witness :
  let out :=
    midi_to_wav (G := Sample.lcg) (E := Sample.no_fluidsynth) "in.mid"
      "out.wav" 44100 Sample.world0 in
  out.1 = Raise (Exn OSError "libfluidsynth not found")
  /\ wav_written out.2 = wav_written Sample.world0
  /\ builtin_calls (synth_calls out.2)
     = builtin_calls (synth_calls Sample.world0).
Proof.
  apply (midi_to_wav_without_fluidsynth (G := Sample.lcg)
           (E := Sample.no_fluidsynth) "in.mid" "out.wav" 44100
           {| initial_tempo := 120; instruments := [] |}
           (Exn OSError "libfluidsynth not found") Sample.world0);
    reflexivity.
Defined.

Lemma midi_to_wav_suyee_all_fail_witness :
  let out :=
    midi_to_wav_suyee (G := Sample.lcg) (E := Sample.no_synthesizer) "in.mid"
      "out.wav" 44100 Sample.world0 in
  out.1 = Raise (Exn ValueError "operands could not be broadcast together")
  /\ wav_written out.2 = wav_written Sample.world0.
Proof.
  apply (midi_to_wav_suyee_all_fail (G := Sample.lcg)
           (E := Sample.no_synthesizer) "in.mid" "out.wav" 44100
           {| initial_tempo := 120; instruments := [] |}
           (Exn ImportError "No module named 'fluidsynth'")
           (Exn OSError "libfluidsynth not found")
           (Exn ValueError "operands could not be broadcast together")
           Sample.world0); reflexivity.
Defined.

Lemma renderers_unreadable_midi_witness :
  let out :=
    midi_to_wav (G := Sample.lcg) (E := Sample.comma_separated) "in.mid"
      "out.wav" 44100 Sample.world0 in
  let out' :=
    midi_to_wav_suyee (G := Sample.lcg) (E := Sample.comma_separated)
      "in.mid" "out.wav" 44100 Sample.world0 in
  out.1 = Raise (Exn FileNotFoundError "No such file or directory")
  /\ out'.1 = Raise (Exn FileNotFoundError "No such file or directory")
  /\ synth_calls out.2 = synth_calls Sample.world0
  /\ synth_calls out'.2 = synth_calls Sample.world0
  /\ wav_written out.2 = wav_written Sample.world0
  /\ wav_written out'.2 = wav_written Sample.world0.
Proof.
  apply (renderers_unreadable_midi (G := Sample.lcg)
           (E := Sample.comma_separated) "in.mid" "out.wav" 44100
           (Exn FileNotFoundError "No such file or directory")
           Sample.world0).
  reflexivity.
Defined.
